(** * tapDetectionApp: the dataset-to-tensor pipeline and its control flow

    A shallow embedding of [modello_py/train_model.py] and
    [modello_py/evaluate_model.py]: the [HandGestureDataset] class
    ([__init__], [__len__], [__getitem__]), the top-level training script
    and the top-level evaluation script.

    Python values are embedded as follows.
    - [int] is [Z]; list indexing follows Python (negative indices count
      from the end, anything else out of range raises [IndexError]).
    - [float] is an abstract carrier (class [PyFloat]); a float32 array
      element is the Python scalar it was converted from.
    - an exception is a constructor of [exn]; a statement that may print
      and raise is a computation in the monad [io].
    - the file system is a finite map from path strings to nodes.
    - the recursion of [__getitem__] is bounded by the interpreter's
      recursion limit, here the argument [depth] (frames still available);
      running out of frames raises [RecursionError]. *)

From Stdlib Require Import ZArith QArith Ascii String Lia.
From stdpp Require Import base strings list gmap.

Open Scope string_scope.
Open Scope list_scope.
Open Scope Z_scope.

(** ** Exceptions and printing computations *)

Inductive exn :=
| IndexError
| FileNotFoundError
| IsADirectoryError
| TypeError
| AttributeError
| ValueError
| OverflowError
| ZeroDivisionError
| RecursionError
| NameError
| UnicodeDecodeError
| SystemExit (code : option Z).

Inductive outcome (A : Type) :=
| Return (a : A)
| Raise (e : exn).
Arguments Return {A} a.
Arguments Raise {A} e.

(** A computation that prints lines of type [M] and then returns or
    raises. *)
Definition io (M A : Type) : Type := list M * outcome A.

Definition io_ret {M A} (a : A) : io M A := ([], Return a).
Definition io_raise {M A} (e : exn) : io M A := ([], Raise e).
Definition io_print {M} (m : M) : io M unit := ([m], Return tt).
Definition io_lift {M A} (o : outcome A) : io M A := ([], o).

Definition io_bind {M A B} (c : io M A) (k : A -> io M B) : io M B :=
  match c with
  | (out, Return a) => let '(out', r) := k a in (out ++ out', r)
  | (out, Raise e) => (out, Raise e)
  end.

Notation "'let!' x := c 'in' k" := (io_bind c (fun x => k))
  (at level 10, x name, c at level 100, k at level 200).
Notation "'do!' c 'in' k" := (io_bind c (fun _ => k))
  (at level 10, c at level 100, k at level 200).

Fixpoint io_mapM {M A B} (f : A -> io M B) (l : list A) : io M (list B) :=
  match l with
  | [] => io_ret []
  | a :: l' => let! b := f a in let! bs := io_mapM f l' in io_ret (b :: bs)
  end.

Definition printed {M A} (c : io M A) : list M := fst c.
Definition result {M A} (c : io M A) : outcome A := snd c.

(** ** Python lists *)

(** [l[i]] for a Python [int] index. *)
Definition py_index {A} (l : list A) (i : Z) : outcome A :=
  let n := Z.of_nat (length l) in
  let j := if i <? 0 then i + n else i in
  if (0 <=? j) && (j <? n) then
    match l !! Z.to_nat j with
    | Some a => Return a
    | None => Raise IndexError
    end
  else Raise IndexError.

(** ** Strings and paths *)

(** [s.endswith(suffix)]. *)
Fixpoint endswith (s suffix : string) : bool :=
  String.eqb s suffix ||
  match s with
  | EmptyString => false
  | String _ s' => endswith s' suffix
  end.

Definition startswith_sep (s : string) : bool :=
  match s with
  | String "/"%char _ => true
  | _ => false
  end.

(** [os.path.join(a, b)] of posixpath, for two components. *)
Definition os_path_join (a b : string) : string :=
  if startswith_sep b then b
  else if String.eqb a "" || endswith a "/" then a +:+ b
  else a +:+ "/" +:+ b.

(** ** Python floats and JSON values *)

(** The float carrier and the two conversions of the interpreter that the
    pipeline relies on without implementing: [float(int)], which raises
    [OverflowError] on integers beyond the double range, and [float(str)],
    which raises [ValueError] on text that is not a float literal. *)
Class PyFloat := {
  pyfloat : Type;
  f_zero : pyfloat;
  f_one : pyfloat;
  f_nan : pyfloat;
  float_of_int : Z -> option pyfloat;
  float_of_str : string -> option pyfloat
}.

Section Dataset.
Context `{PyFloat}.

(** What [json.load] returns: [None], [bool], [int], [float], [str],
    [list] and [dict] (the members of a dict are its items; lookup takes
    the first item with the key). *)
#[warnings="-register-all"]
Inductive json :=
| JNull
| JBool (b : bool)
| JInt (z : Z)
| JFloat (x : pyfloat)
| JString (s : string)
| JArray (items : list json)
| JObject (members : list (string * json)).

(** What [json.load(f)] does on an opened file: it raises
    [JSONDecodeError] (the text is not a JSON document), it raises another
    exception (for instance [UnicodeDecodeError] when the bytes are not
    text in the expected encoding, [ValueError] or [RecursionError] from
    the parser), or it returns the value the text parses to. *)
Inductive content :=
| NotJson
| Unreadable (e : exn)
| Json (data : json).

(** A directory lists its entry names in the order [os.listdir] returns
    them. *)
Inductive node :=
| Dir (entries : list string)
| File (c : content).

Definition os_path_isdir (fs : gmap string node) (p : string) : bool :=
  match fs !! p with
  | Some (Dir _) => true
  | _ => false
  end.

Definition os_listdir (fs : gmap string node) (p : string) : list string :=
  match fs !! p with
  | Some (Dir entries) => entries
  | _ => []
  end.

(** [open(p, 'r')]: the file object, here what [json.load] will do on
    it. *)
Definition open_read (fs : gmap string node) (p : string) : outcome content :=
  match fs !! p with
  | Some (File c) => Return c
  | Some (Dir _) => Raise IsADirectoryError
  | None => Raise FileNotFoundError
  end.

(** ** Lines printed by the dataset class *)

Inductive message :=
| MsgMissingDir (class_dir : string)
| MsgJsonError (file_path : string)
| MsgBadShape (file_path : string) (shape : list nat).

(** ** HandGestureDataset *)

Definition WINDOW_SIZE : nat := 25.
Definition NUM_FEATURES : nat := 3.

Record HandGestureDataset := {
  data_files : list string;
  labels : list Z
}.

(** [self.label_map], in insertion order. *)
Definition label_map : list (string * Z) := [("sfondo", 0); ("tap", 1)].

(** The body of the inner loop of [__init__]. *)
Definition add_file (class_dir : string) (label_idx : Z)
    (self : HandGestureDataset) (filename : string) : HandGestureDataset :=
  if endswith filename ".json" then
    {| data_files := data_files self ++ [os_path_join class_dir filename];
       labels := labels self ++ [label_idx] |}
  else self.

(** The body of the outer loop of [__init__]. *)
Definition add_class (fs : gmap string node) (data_dir : string)
    (st : list message * HandGestureDataset) (item : string * Z)
    : list message * HandGestureDataset :=
  let '(out, self) := st in
  let '(label_name, label_idx) := item in
  let class_dir := os_path_join data_dir label_name in
  if negb (os_path_isdir fs class_dir) then
    (out ++ [MsgMissingDir class_dir], self)
  else
    (out, fold_left (add_file class_dir label_idx) (os_listdir fs class_dir) self).

(** [HandGestureDataset(data_dir)]: the printed lines and the object. *)
Definition init (fs : gmap string node) (data_dir : string)
    : list message * HandGestureDataset :=
  fold_left (add_class fs data_dir) label_map
            ([], {| data_files := []; labels := [] |}).

(** [len(self)]. *)
Definition len (self : HandGestureDataset) : Z :=
  Z.of_nat (length (data_files self)).

(** ** NumPy arrays *)

(** An element of a float32 array: NumPy rounds the Python float to single
    precision; the element is kept as the float it comes from and the
    rounding is left uninterpreted. *)
Inductive float32 :=
| np_float32 (x : pyfloat).

(** An array (or tensor): its shape and its elements in row-major order. *)
Record ndarray := {
  shape : list nat;
  elements : list float32
}.

(** [torch.zeros(rows, cols)]. *)
Definition torch_zeros (rows cols : nat) : ndarray :=
  {| shape := [rows; cols];
     elements := replicate (rows * cols) (np_float32 f_zero) |}.

Definition same_shape (a b : option (list nat)) : bool :=
  bool_decide (a = b).

(** The shape NumPy discovers for a Python object: a list is a dimension
    when all its items have one and the same shape, anything else is a
    scalar; [None] stands for an inhomogeneous nesting. *)
Fixpoint np_shape (v : json) : option (list nat) :=
  match v with
  | JArray items =>
      match map np_shape items with
      | [] => Some [0%nat]
      | s :: ss =>
          if forallb (same_shape s) ss then
            match s with
            | Some dims => Some (length items :: dims)
            | None => None
            end
          else None
      end
  | _ => Some []
  end.

(** The scalars of a nested list, in row-major order. *)
Fixpoint np_leaves (v : json) : list json :=
  match v with
  | JArray items => flat_map np_leaves items
  | _ => [v]
  end.

(** Storing one Python object into a float32 array: [None] becomes NaN,
    everything else goes through [float(obj)]. *)
Definition np_setitem (v : json) : outcome float32 :=
  match v with
  | JNull => Return (np_float32 f_nan)
  | JBool b => Return (np_float32 (if b then f_one else f_zero))
  | JInt z =>
      match float_of_int z with
      | Some x => Return (np_float32 x)
      | None => Raise OverflowError
      end
  | JFloat x => Return (np_float32 x)
  | JString s =>
      match float_of_str s with
      | Some x => Return (np_float32 x)
      | None => Raise ValueError
      end
  | JArray _ => Raise ValueError
  | JObject _ => Raise TypeError
  end.

Fixpoint outcome_mapM {A B} (f : A -> outcome B) (l : list A)
    : outcome (list B) :=
  match l with
  | [] => Return []
  | a :: l' =>
      match f a with
      | Return b =>
          match outcome_mapM f l' with
          | Return bs => Return (b :: bs)
          | Raise e => Raise e
          end
      | Raise e => Raise e
      end
  end.

(** [np.array(v, dtype=np.float32)]. NumPy's cap on the number of
    dimensions is not represented. *)
Definition np_array (v : json) : outcome ndarray :=
  match np_shape v with
  | None => Raise ValueError
  | Some dims =>
      match outcome_mapM np_setitem (np_leaves v) with
      | Return xs => Return {| shape := dims; elements := xs |}
      | Raise e => Raise e
      end
  end.

(** ** Reading one sample *)

(** [for item in data]: the items of a list, the keys of a dict, the
    characters of a string; other values are not iterable. *)
Definition py_iter (data : json) : outcome (list json) :=
  match data with
  | JArray items => Return items
  | JObject members => Return (map (fun kv => JString (fst kv)) members)
  | JString s => Return (map (fun c => JString (String c EmptyString))
                             (list_ascii_of_string s))
  | _ => Raise TypeError
  end.

Fixpoint assoc (key : string) (members : list (string * json)) : option json :=
  match members with
  | [] => None
  | (k, v) :: rest => if String.eqb k key then Some v else assoc key rest
  end.

(** [item.get(key, 0.0)]. *)
Definition item_get (key : string) (item : json) : outcome json :=
  match item with
  | JObject members =>
      match assoc key members with
      | Some v => Return v
      | None => Return (JFloat f_zero)
      end
  | _ => Raise AttributeError
  end.

(** [[item.get(key, 0.0) for item in data]]. *)
Definition signal (key : string) (data : json) : outcome (list json) :=
  match py_iter data with
  | Return items => outcome_mapM (item_get key) items
  | Raise e => Raise e
  end.

(** Lines 60-65 of [__getitem__]: the three signals and the array built
    from them. *)
Definition extract_features (data : json) : outcome ndarray :=
  match signal "relativeYVelocity" data with
  | Raise e => Raise e
  | Return velocity =>
  match signal "relativeYAcceleration" data with
  | Raise e => Raise e
  | Return acceleration =>
  match signal "stabilityRatio" data with
  | Raise e => Raise e
  | Return velocity_ratio =>
      np_array (JArray [JArray velocity; JArray acceleration;
                        JArray velocity_ratio])
  end end end.

Definition shape_ok (features : ndarray) : bool :=
  bool_decide (shape features = [NUM_FEATURES; WINDOW_SIZE]).

(** [self.__getitem__(idx)] with [depth] frames left on the stack. *)
Fixpoint getitem (depth : nat) (fs : gmap string node)
    (self : HandGestureDataset) (idx : Z) : io message (ndarray * Z) :=
  match depth with
  | O => io_raise RecursionError
  | S depth' =>
      let! file_path := io_lift (py_index (data_files self) idx) in
      let! c := io_lift (open_read fs file_path) in
      match c with
      | NotJson =>
          do! io_print (MsgJsonError file_path) in
          io_ret (torch_zeros NUM_FEATURES WINDOW_SIZE, 0)
      | Unreadable e => io_raise e
      | Json data =>
          let! features := io_lift (extract_features data) in
          if negb (shape_ok features) then
            do! io_print (MsgBadShape file_path (shape features)) in
            if len self =? 0 then io_raise ZeroDivisionError
            else getitem depth' fs self ((idx + 1) mod len self)
          else
            let! label := io_lift (py_index (labels self) idx) in
            io_ret (features, label)
      end
  end.

End Dataset.

(** ** The batch assembler (torch.utils.data.DataLoader) *)

(** Modelled from the spec: the Batch Assembler of section 4.3, which the
    scripts take from the PyTorch library ([DataLoader]); its code is not
    part of the repository. The indices of one pass are cut into
    consecutive batches of [batch_size]; an under-sized last batch is kept
    unless [drop_last] is set. [batch] holds the indices collected for the
    batch under construction. *)
Fixpoint batch_sampler (batch_size : nat) (drop_last : bool)
    (batch : list nat) (indices : list nat) : list (list nat) :=
  match indices with
  | [] => if (0 <? length batch)%nat && negb drop_last then [batch] else []
  | idx :: rest =>
      let batch' := batch ++ [idx] in
      if (length batch' =? batch_size)%nat
      then batch' :: batch_sampler batch_size drop_last [] rest
      else batch_sampler batch_size drop_last batch' rest
  end.

(** The batches of one pass over the index order [indices]. *)
Definition batches (batch_size : nat) (drop_last : bool)
    (indices : list nat) : list (list nat) :=
  batch_sampler batch_size drop_last [] indices.

(** ** Metrics (sklearn.metrics) *)

(** Number of positions at which the two sequences hold [a] and [b]. *)
Definition count_pairs {A} `{EqDecision A} (a b : A) (y_true y_pred : list A)
    : nat :=
  length (filter (fun tp => tp = (a, b)) (zip y_true y_pred)).

(** Number of positions at which the two sequences agree. *)
Definition count_matches (y_true y_pred : list Z) : nat :=
  length (filter (fun tp => fst tp = snd tp) (zip y_true y_pred)).

(** Modelled from the spec: the accuracy of section 4.6, computed by
    [sklearn.metrics.accuracy_score], a library outside the repository:
    the fraction of positions where prediction and truth agree. The
    evaluator only calls it on a non-empty pass. *)
Definition accuracy_score (y_true y_pred : list Z) : Q :=
  Z.of_nat (count_matches y_true y_pred) # Pos.of_nat (length y_true).

(** Modelled from the spec: the confusion matrix of section 4.6, computed
    by [sklearn.metrics.confusion_matrix] with [labels=class_names], a
    library outside the repository: rows are true classes, columns are
    predicted classes, both in the order of [class_labels]. *)
Definition confusion_matrix (y_true y_pred : list string)
    (class_labels : list string) : list (list nat) :=
  map (fun t => map (fun p => count_pairs t p y_true y_pred) class_labels)
      class_labels.

(** ** The PyTorch objects the scripts drive *)

(** The parts of PyTorch that the scripts call and do not implement: the
    global random generator, the model with its optimizer, one
    optimisation step on a batch, and the forward pass on one sample.
    [randperm g n] is the index order a shuffling loader draws for one pass
    over [n] samples. [picks_second a b] tells whether [torch.max] selects
    the second of the two scores. *)
Class Torch `{PyFloat} := {
  rng : Type;
  parameters : Type;
  loss_value : Type;
  logit : Type;
  new_model : rng -> parameters * rng;
  randperm : rng -> nat -> list nat * rng;
  randperm_perm : forall g n, Permutation (fst (randperm g n)) (seq 0 n);
  train_step : parameters -> list (ndarray * Z) -> parameters * loss_value;
  forward : parameters -> ndarray -> logit * logit;
  picks_second : logit -> logit -> bool
}.

Section Scripts.
Context `{Torch}.

(** ** What a script prints and does *)

Inductive line :=
| Dataset (m : message)
| LoadingData
| NoTrainingData
| InitModel
| StartTraining
| EpochLoss (epoch : nat) (loss : loss_value)
| TrainingDone
| WeightsSaved
| Converting
| ModelSaved
| InputName
| ProbabilitiesName
| LabelName
| LoadingTestData
| NoTestData
| LoadingModel
| RunningPredictions
| ResultsHeader
| Accuracy (accuracy : Q)
| MatrixHeader
| Matrix (cm : list (list nat))
| ReportHeader
| Report (y_true y_pred : list string).

(** The work of a script besides printing. *)
Inductive work :=
| ModelCreated
| OptimizerStep
| TorchSave (p : parameters)
| CoreMLConvert
| CoreMLSave
| TorchLoad
| ForwardPass
| Metric.

Inductive event :=
| Print (l : line)
| Work (w : work).

Definition say (l : line) : io event unit := io_print (Print l).
Definition perform (w : work) : io event unit := io_print (Work w).

(** A computation of the dataset class, run by a script. *)
Definition from_dataset {A} (c : io message A) : io event A :=
  (map (fun m => Print (Dataset m)) (fst c), snd c).

Fixpoint io_foldM {M A B} (f : A -> B -> io M A) (a : A) (l : list B)
    : io M A :=
  match l with
  | [] => io_ret a
  | b :: l' => let! a' := f a b in io_foldM f a' l'
  end.

(** The loader fetching one batch: [dataset[i]] for each index. *)
Definition fetch (limit : nat) (fs : gmap string node)
    (dataset : HandGestureDataset) (batch : list nat)
    : io event (list (ndarray * Z)) :=
  io_mapM (fun i => from_dataset (getitem limit fs dataset (Z.of_nat i)))
          batch.

(** ** train_model.py *)

Definition DATA_DIR : string := "dataset/train".
Definition BATCH_SIZE : nat := 16.
Definition NUM_EPOCHS : nat := 500.

(** The batches [train_loader] yields in one epoch, for the index order
    its shuffling draws: [DataLoader(..., batch_size=BATCH_SIZE,
    shuffle=True, drop_last=True)]. *)
Definition train_loader (order : list nat) : list (list nat) :=
  batches BATCH_SIZE true order.

(** The variables of the training loop: the generator, the model, and
    [loss], unbound until the first batch is processed. *)
Record train_state := {
  generator : rng;
  model : parameters;
  loss : option loss_value
}.

(** The body of the inner loop: lines 137-146. *)
Definition train_batch (limit : nat) (fs : gmap string node)
    (dataset : HandGestureDataset) (st : train_state) (batch : list nat)
    : io event train_state :=
  let! samples := fetch limit fs dataset batch in
  let '(model', loss') := train_step (model st) samples in
  do! perform OptimizerStep in
  io_ret {| generator := generator st; model := model'; loss := Some loss' |}.

(** [for epoch in range(NUM_EPOCHS)], with [todo] epochs to go. *)
Fixpoint train_epochs (todo epoch : nat) (limit : nat)
    (fs : gmap string node) (dataset : HandGestureDataset)
    (st : train_state) : io event train_state :=
  match todo with
  | O => io_ret st
  | S todo' =>
      let '(order, g') :=
        randperm (generator st) (length (data_files dataset)) in
      let st0 := {| generator := g'; model := model st; loss := loss st |} in
      let! st1 := io_foldM (train_batch limit fs dataset) st0
                           (train_loader order) in
      match loss st1 with
      | None => io_raise NameError
      | Some l =>
          do! say (EpochLoss (S epoch) l) in
          train_epochs todo' (S epoch) limit fs dataset st1
      end
  end.

(** The top level of [train_model.py]; it returns the saved weights. *)
Definition train_model (limit : nat) (fs : gmap string node) (g : rng)
    : io event parameters :=
  do! say LoadingData in
  let '(out, train_dataset) := init fs DATA_DIR in
  do! from_dataset (out, Return tt) in
  if len train_dataset =? 0 then
    do! say NoTrainingData in
    io_raise (SystemExit None)
  else
    do! say InitModel in
    let '(m, g') := new_model g in
    do! perform ModelCreated in
    do! say StartTraining in
    let! st := train_epochs NUM_EPOCHS 0 limit fs train_dataset
                 {| generator := g'; model := m; loss := None |} in
    do! say TrainingDone in
    do! perform (TorchSave (model st)) in
    do! say WeightsSaved in
    do! say Converting in
    do! perform CoreMLConvert in
    do! perform CoreMLSave in
    do! say ModelSaved in
    do! say InputName in
    do! say ProbabilitiesName in
    do! say LabelName in
    io_ret (model st).

(** ** evaluate_model.py *)

Definition TEST_DATA_DIR : string := "dataset/test".
Definition EVAL_BATCH_SIZE : nat := 8.
Definition class_names : list string := ["sfondo"; "tap"].

(** The batches [test_loader] yields over [n] samples:
    [DataLoader(..., batch_size=BATCH_SIZE, shuffle=False)], which keeps
    the last batch. *)
Definition test_loader (n : nat) : list (list nat) :=
  batches EVAL_BATCH_SIZE false (seq 0 n).

(** [torch.max(outputs.data, 1)] on the two scores of one sample. *)
Definition argmax (scores : logit * logit) : Z :=
  if picks_second (fst scores) (snd scores) then 1 else 0.

(** The body of the evaluation loop: lines 38-44. *)
Definition eval_batch (limit : nat) (fs : gmap string node)
    (dataset : HandGestureDataset) (p : parameters)
    (acc : list Z * list Z) (batch : list nat) : io event (list Z * list Z) :=
  let! samples := fetch limit fs dataset batch in
  do! perform ForwardPass in
  let predicted := map (fun s => argmax (forward p (fst s))) samples in
  io_ret (fst acc ++ map snd samples, snd acc ++ predicted).

(** The pass over the test set: the true and the predicted labels. *)
Definition eval_pass (limit : nat) (fs : gmap string node)
    (dataset : HandGestureDataset) (p : parameters)
    : io event (list Z * list Z) :=
  io_foldM (eval_batch limit fs dataset p) ([], [])
           (test_loader (length (data_files dataset))).

(** [[class_names[i] for i in ys]]. *)
Definition named (ys : list Z) : outcome (list string) :=
  outcome_mapM (py_index class_names) ys.

(** [classification_report(y_true, y_pred, target_names=target_names)]
    of [sklearn.metrics], a library outside the repository. Called
    without [labels=], it takes as classes the distinct values that occur
    in the two sequences and raises [ValueError] when their number is not
    the number of target names; the text of the report is not
    interpreted. *)
Definition classification_report (y_true y_pred target_names : list string)
    : outcome line :=
  if (length (remove_dups (y_true ++ y_pred)) =? length target_names)%nat
  then Return (Report y_true y_pred)
  else Raise ValueError.

(** Section 4 of the script: the metrics and their printing. *)
Definition report_metrics (all_labels all_predictions : list Z)
    : io event unit :=
  let! all_labels_named := io_lift (named all_labels) in
  let! all_predictions_named := io_lift (named all_predictions) in
  do! perform Metric in
  do! say ResultsHeader in
  do! say (Accuracy (accuracy_score all_labels all_predictions)) in
  do! say MatrixHeader in
  do! say (Matrix (confusion_matrix all_labels_named all_predictions_named
                                    class_names)) in
  do! say ReportHeader in
  let! report := io_lift (classification_report all_labels_named
                            all_predictions_named class_names) in
  say report.

(** The script after its imports. *)
Definition evaluate (limit : nat) (fs : gmap string node)
    (saved : parameters) : io event unit :=
  do! say LoadingTestData in
  let '(out, test_dataset) := init fs TEST_DATA_DIR in
  do! from_dataset (out, Return tt) in
  if len test_dataset =? 0 then
    do! say NoTestData in
    io_raise (SystemExit None)
  else
    do! say LoadingModel in
    do! perform ModelCreated in
    do! perform TorchLoad in
    do! say RunningPredictions in
    let! r := eval_pass limit fs test_dataset saved in
    report_metrics (fst r) (snd r).

(** The top level of [evaluate_model.py]: line 9 imports [train_model],
    which runs that module's top level, then the script proper runs on
    the weights the import has just saved. *)
Definition evaluate_model (limit : nat) (fs : gmap string node) (g : rng)
    : io event unit :=
  let! saved := train_model limit fs g in
  evaluate limit fs saved.

(** The exit status of the interpreter. *)
Definition exit_status {A} (c : io event A) : Z :=
  match snd c with
  | Return _ => 0
  | Raise (SystemExit None) => 0
  | Raise (SystemExit (Some code)) => code
  | Raise _ => 1
  end.

End Scripts.

(** ** Vocabulary of the properties *)

Section Vocabulary.
Context `{PyFloat}.

(** The sample files of a class directory, in enumeration order. *)
Definition json_files (fs : gmap string node) (class_dir : string)
    : list string :=
  filter (fun filename => endswith filename ".json" = true)
         (os_listdir fs class_dir).

(** The entries one class contributes: its sample files, each with the
    class index. *)
Definition class_entries (fs : gmap string node) (data_dir : string)
    (item : string * Z) : list (string * Z) :=
  let class_dir := os_path_join data_dir (fst item) in
  if os_path_isdir fs class_dir
  then map (fun filename => (os_path_join class_dir filename, snd item))
           (json_files fs class_dir)
  else [].

(** The entries of a dataset: file path and label index. *)
Definition entries (self : HandGestureDataset) : list (string * Z) :=
  zip (data_files self) (labels self).

(** The two lists of a dataset built by [__init__] run in parallel. *)
Definition aligned (self : HandGestureDataset) : Prop :=
  length (data_files self) = length (labels self).

(** The three signals, in channel order. *)
Definition SIGNALS : list string :=
  ["relativeYVelocity"; "relativeYAcceleration"; "stabilityRatio"].

(** A JSON number that converts to a float. *)
Definition numeric (v : json) : bool :=
  match v with
  | JFloat _ => true
  | JInt z => bool_decide (is_Some (float_of_int z))
  | _ => false
  end.

(** A frame record: an object whose signals, where present, are numbers;
    other keys are free. *)
Definition frame_record (item : json) : Prop :=
  exists members,
    item = JObject members /\
    forall key v,
      key ∈ SIGNALS -> assoc key members = Some v -> numeric v = true.

(** The value a frame record holds for a signal, 0.0 when the key is
    missing. *)
Definition signal_value (key : string) (item : json) : json :=
  match item with
  | JObject members => default (JFloat f_zero) (assoc key members)
  | _ => JNull
  end.

(** The sample at index [j] parses as JSON and yields an array whose
    shape is not (3, 25): the case in which [__getitem__] moves on. *)
Definition defective (fs : gmap string node) (self : HandGestureDataset)
    (j : Z) : Prop :=
  exists path data features,
    data_files self !! Z.to_nat j = Some path /\
    fs !! path = Some (File (Json data)) /\
    extract_features data = Return features /\
    shape features <> [NUM_FEATURES; WINDOW_SIZE].

(** A JSON value that is a dict after parsing. *)
Definition is_object (v : json) : bool :=
  match v with
  | JObject _ => true
  | _ => false
  end.

(** A JSON value Python cannot iterate over. *)
Definition not_iterable (v : json) : bool :=
  match v with
  | JNull | JBool _ | JInt _ | JFloat _ => true
  | _ => false
  end.

(** Number of cells of an array of the given shape. *)
Definition cells (dims : list nat) : nat := fold_right Nat.mul 1%nat dims.

End Vocabulary.

(** ** Vocabulary of the properties of the scripts *)

Section RunVocabulary.
Context `{Torch}.

(** The two kinds of run. *)
Inductive script :=
| Training
| Evaluation.

(** The directory a run enumerates for its dataset. *)
Definition dataset_dir (s : script) : string :=
  match s with
  | Training => DATA_DIR
  | Evaluation => TEST_DATA_DIR
  end.

(** What a run executes before the first statement of its own script:
    nothing for training, the import of [train_model] for evaluation. *)
Definition imports (s : script) (limit : nat) (fs : gmap string node)
    (g : rng) : io event unit :=
  match s with
  | Training => io_ret tt
  | Evaluation => do! train_model limit fs g in io_ret tt
  end.

(** A whole run of a script. *)
Definition run (s : script) (limit : nat) (fs : gmap string node)
    (g : rng) : io event unit :=
  match s with
  | Training => do! train_model limit fs g in io_ret tt
  | Evaluation => evaluate_model limit fs g
  end.

(** The lines a run prints around the enumeration of its dataset. *)
Definition loading_line (s : script) : line :=
  match s with
  | Training => LoadingData
  | Evaluation => LoadingTestData
  end.

Definition no_data_line (s : script) : line :=
  match s with
  | Training => NoTrainingData
  | Evaluation => NoTestData
  end.

Definition is_print (e : event) : Prop :=
  match e with
  | Print _ => True
  | Work _ => False
  end.

(** A label index of one of the two classes. *)
Definition is_class (y : Z) : Prop := y = 0 \/ y = 1.

(** The name the evaluation script gives a class index. *)
Definition class_name_of (y : Z) : string :=
  default "" (class_names !! Z.to_nat y).

(** Both classes occur among the true and the predicted labels. *)
Definition both_classes (T P : list Z) : bool :=
  bool_decide (0 ∈ T ++ P) && bool_decide (1 ∈ T ++ P).

(** Number of occurrences of a class in a label sequence. *)
Definition count_class (a : Z) (ys : list Z) : nat :=
  length (filter (fun y => y = a) ys).

(** The events counted in a run. *)
Definition is_step (e : event) : bool :=
  match e with
  | Work OptimizerStep => true
  | _ => false
  end.

Definition is_epoch_line (e : event) : bool :=
  match e with
  | Print (EpochLoss _ _) => true
  | _ => false
  end.

Definition is_forward (e : event) : bool :=
  match e with
  | Work ForwardPass => true
  | _ => false
  end.

Definition count_events (f : event -> bool) (trace : list event) : nat :=
  length (List.filter f trace).

(** Every index of the dataset can be fetched within the recursion
    limit. *)
Definition fetchable (limit : nat) (fs : gmap string node)
    (dataset : HandGestureDataset) : Prop :=
  forall i, 0 <= i < len dataset ->
    exists sample, result (getitem limit fs dataset i) = Return sample.

End RunVocabulary.

(** ** A concrete interpreter and concrete inputs, for the examples *)

(** Floats as exact rationals, with [None] for NaN; no string is accepted
    as a float literal. *)
Definition rational_floats : PyFloat :=
  {| pyfloat := option Q;
     f_zero := Some 0%Q;
     f_one := Some 1%Q;
     f_nan := None;
     float_of_int := fun z => Some (Some (inject_Z z));
     float_of_str := fun _ => None |}.

(** A loader that does not shuffle and a model that never learns and
    always answers "tap". *)
Definition idle_torch : @Torch rational_floats :=
  {| rng := unit;
     parameters := unit;
     loss_value := unit;
     logit := Z;
     new_model := fun g => (tt, g);
     randperm := fun g n => (seq 0 n, g);
     randperm_perm := fun _ n => Permutation_refl (seq 0 n);
     train_step := fun _ _ => (tt, tt);
     forward := fun _ _ => (0, 1);
     picks_second := fun a b => a <? b |}.

Section Examples.
#[local] Existing Instance rational_floats.
#[local] Existing Instance idle_torch.

(** A frame record with all three signals. *)
Definition full_frame : json :=
  JObject [("relativeYVelocity", JFloat (Some 0.5%Q));
           ("relativeYAcceleration", JInt 2);
           ("stabilityRatio", JFloat (Some 0.25%Q));
           ("timestamp", JString "t0")].

(** A frame record without the acceleration signal. *)
Definition partial_frame : json :=
  JObject [("relativeYVelocity", JFloat (Some 1.5%Q));
           ("stabilityRatio", JFloat (Some 0.75%Q))].

(** A window of 25 frames, the second one partial. *)
Definition good_window : json :=
  JArray (full_frame :: partial_frame :: replicate 23 full_frame).

(** A window of 24 frames. *)
Definition short_window : json :=
  JArray (replicate 24 full_frame).

(** A test set of one file that holds an empty JSON array. *)
Definition fs_empty_window : gmap string node :=
  {[ "dataset/test/tap" := Dir ["a.json"];
     "dataset/test/tap/a.json" := File (Json (JArray [])) ]}.

(** A training set of three files: a short window, a good window and a
    file that is not JSON; next to them a file that is not a sample. *)
Definition fs_small : gmap string node :=
  {[ "dataset/train/sfondo" := Dir ["s0.json"; "notes.txt"];
     "dataset/train/tap" := Dir ["t0.json"; "t1.json"];
     "dataset/train/sfondo/s0.json" := File (Json short_window);
     "dataset/train/tap/t0.json" := File (Json good_window);
     "dataset/train/tap/t1.json" := File NotJson ]}.

(** The same tree with other file contents. *)
Definition fs_small' : gmap string node :=
  {[ "dataset/train/sfondo" := Dir ["s0.json"; "notes.txt"];
     "dataset/train/tap" := Dir ["t0.json"; "t1.json"];
     "dataset/train/sfondo/s0.json" := File NotJson;
     "dataset/train/tap/t0.json" := File (Json short_window);
     "dataset/train/tap/t1.json" := File (Json good_window) ]}.

(** A test set of three files: a good window of class "sfondo", a good
    window and a file that is not JSON of class "tap". *)
Definition fs_test : gmap string node :=
  {[ "dataset/test/sfondo" := Dir ["b0.json"];
     "dataset/test/tap" := Dir ["t0.json"; "t1.json"];
     "dataset/test/sfondo/b0.json" := File (Json good_window);
     "dataset/test/tap/t0.json" := File (Json good_window);
     "dataset/test/tap/t1.json" := File NotJson ]}.

(** A training set of one file whose bytes are not text: reading it
    raises [UnicodeDecodeError]. *)
Definition fs_garbled : gmap string node :=
  {[ "dataset/train/tap" := Dir ["g.json"];
     "dataset/train/tap/g.json" := File (Unreadable UnicodeDecodeError) ]}.

(** A training set of two files, listed as a, b. *)
Definition fs_listed_ab : gmap string node :=
  {[ "dataset/train/tap" := Dir ["a.json"; "b.json"];
     "dataset/train/tap/a.json" := File (Json good_window);
     "dataset/train/tap/b.json" := File (Json short_window) ]}.

(** The same files, listed as b, a. *)
Definition fs_listed_ba : gmap string node :=
  <[ "dataset/train/tap" := Dir ["b.json"; "a.json"] ]> fs_listed_ab.

(** Sixteen sample names. *)
Definition sixteen_names : list string :=
  ["00.json"; "01.json"; "02.json"; "03.json"; "04.json"; "05.json";
   "06.json"; "07.json"; "08.json"; "09.json"; "10.json"; "11.json";
   "12.json"; "13.json"; "14.json"; "15.json"].

(** A training set of sixteen good windows of class "tap". *)
Definition fs_train16 : gmap string node :=
  <[ "dataset/train/tap" := Dir sixteen_names ]>
    (list_to_map
       (map (fun name => ("dataset/train/tap/" +:+ name,
                          File (Json good_window)))
            sixteen_names)).

(** A training set whose files are all unusable: a number, an array with
    an item that is not an object, and a listed name without a file. *)
Definition fs_odd : gmap string node :=
  {[ "dataset/train/tap" := Dir ["n.json"; "a.json"; "gone.json"];
     "dataset/train/tap/n.json" := File (Json (JInt 5));
     "dataset/train/tap/a.json" := File (Json (JArray [full_frame; JInt 1])) ]}.

(** What [get(i)] returns on the test set [fs_test]. *)
Definition test_sample (i : nat) : ndarray * Z :=
  match result (getitem 1 fs_test (snd (init fs_test TEST_DATA_DIR))
                        (Z.of_nat i)) with
  | Return sample => sample
  | Raise _ => (torch_zeros NUM_FEATURES WINDOW_SIZE, 0)
  end.

End Examples.

(** * Properties *)

(** ** Strings *)

Lemma endswith_append (p suffix : string) :
  endswith (p +:+ suffix) suffix = true.
Proof.
  induction p as [|c p IH]; simpl.
  - destruct suffix; simpl; [reflexivity|].
    now rewrite Ascii.eqb_refl, String.eqb_refl.
  - rewrite IH. apply orb_true_r.
Qed.

(** [endswith] holds exactly of the strings that end in the suffix. *)
Lemma endswith_spec (s suffix : string) :
  endswith s suffix = true <-> exists p, s = p +:+ suffix.
Proof.
  split.
  - induction s as [|c s IH].
    + cbn [endswith]. rewrite orb_false_r. intros E%String.eqb_eq.
      now exists "".
    + cbn [endswith]. intros [E%String.eqb_eq | E]%orb_true_iff.
      * now exists "".
      * destruct (IH E) as [p ->]. now exists (String c p).
  - intros [p ->]. apply endswith_append.
Qed.

(** ** The dataset index *)

Section DatasetFacts.
Context `{PyFloat}.

Lemma add_file_fold (class_dir : string) (label_idx : Z)
    (names : list string) (self : HandGestureDataset) :
  let found := filter (fun f => endswith f ".json" = true) names in
  fold_left (add_file class_dir label_idx) names self =
  {| data_files := data_files self ++ map (os_path_join class_dir) found;
     labels := labels self ++ map (fun _ => label_idx) found |}.
Proof.
  revert self. induction names as [|f names IH]; intros self; simpl.
  - rewrite !app_nil_r. now destruct self.
  - rewrite IH. unfold add_file. rewrite filter_cons.
    destruct (endswith f ".json") eqn:E.
    + rewrite decide_True by reflexivity. simpl.
      now rewrite <- !app_assoc.
    + rewrite decide_False by discriminate. reflexivity.
Qed.

Lemma add_class_entries (fs : gmap string node) (data_dir : string)
    (out : list message) (self : HandGestureDataset) (item : string * Z) :
  aligned self ->
  let st := add_class fs data_dir (out, self) item in
  aligned (snd st) /\
  entries (snd st) = entries self ++ class_entries fs data_dir item /\
  fst st = out ++
    (if os_path_isdir fs (os_path_join data_dir (fst item)) then []
     else [MsgMissingDir (os_path_join data_dir (fst item))]).
Proof.
  intros Hal. destruct item as [label_name label_idx].
  unfold add_class, class_entries, entries, aligned in *. simpl.
  destruct (os_path_isdir fs (os_path_join data_dir label_name)); simpl.
  - rewrite add_file_fold. simpl. unfold json_files.
    set (found := filter _ _).
    split; [|split].
    + rewrite !length_app, !length_map. lia.
    + rewrite zip_with_app by exact Hal. f_equal.
      clear. induction found as [|f found IH]; simpl; [reflexivity|].
      now rewrite <- IH.
    + now rewrite app_nil_r.
  - rewrite app_nil_r. auto.
Qed.

(** What [__init__] builds: the entries of class "sfondo" followed by
    those of class "tap", and one warning per missing class directory. *)
Lemma init_entries (fs : gmap string node) (data_dir : string) :
  aligned (snd (init fs data_dir)) /\
  entries (snd (init fs data_dir)) =
    class_entries fs data_dir ("sfondo", 0) ++
    class_entries fs data_dir ("tap", 1) /\
  fst (init fs data_dir) =
    (if os_path_isdir fs (os_path_join data_dir "sfondo") then []
     else [MsgMissingDir (os_path_join data_dir "sfondo")]) ++
    (if os_path_isdir fs (os_path_join data_dir "tap") then []
     else [MsgMissingDir (os_path_join data_dir "tap")]).
Proof.
  unfold init, label_map. cbn [fold_left].
  set (empty := {| data_files := []; labels := [] |}).
  assert (H0 : aligned empty) by reflexivity.
  destruct (add_class_entries fs data_dir [] empty ("sfondo", 0) H0)
    as (Ha1 & He1 & Ho1).
  destruct (add_class fs data_dir ([], empty) ("sfondo", 0)) as [out1 ds1].
  simpl in Ha1, He1, Ho1.
  destruct (add_class_entries fs data_dir out1 ds1 ("tap", 1) Ha1)
    as (Ha2 & He2 & Ho2).
  split; [exact Ha2|]. split.
  - rewrite He2, He1. reflexivity.
  - rewrite Ho2, Ho1. reflexivity.
Qed.

Lemma class_entries_length (fs : gmap string node) (data_dir : string)
    (item : string * Z) :
  length (class_entries fs data_dir item) =
  length (json_files fs (os_path_join data_dir (fst item))).
Proof.
  unfold class_entries, json_files, os_listdir, os_path_isdir.
  destruct (fs !! os_path_join data_dir (fst item)) as [[names|c]|];
    simpl; [now rewrite length_map|reflexivity|reflexivity].
Qed.

Lemma entries_length (self : HandGestureDataset) :
  aligned self -> length (entries self) = length (data_files self).
Proof.
  unfold aligned, entries. intros Hal. rewrite length_zip_with. lia.
Qed.

(** C7. The size of the dataset index is the number of names ending in
    ".json" listed in the two class directories [data_dir/sfondo] and
    [data_dir/tap] (the spec's "background" and "tap"); construction
    always yields an index, a class directory that does not exist
    contributes no entry and gets one printed warning. *)
Theorem init_len_counts_json_files (fs : gmap string node)
    (data_dir : string) :
  let sfondo_dir := os_path_join data_dir "sfondo" in
  let tap_dir := os_path_join data_dir "tap" in
  len (snd (init fs data_dir)) =
    Z.of_nat (length (json_files fs sfondo_dir) +
              length (json_files fs tap_dir)) /\
  (forall class_dir filename,
     filename ∈ json_files fs class_dir <->
     filename ∈ os_listdir fs class_dir /\
     exists stem, filename = stem +:+ ".json") /\
  (forall class_dir,
     class_dir ∈ [sfondo_dir; tap_dir] ->
     os_path_isdir fs class_dir = false ->
     json_files fs class_dir = [] /\
     MsgMissingDir class_dir ∈ fst (init fs data_dir)) /\
  (forall class_dir,
     MsgMissingDir class_dir ∈ fst (init fs data_dir) ->
     os_path_isdir fs class_dir = false).
Proof.
  intros sfondo_dir tap_dir.
  destruct (init_entries fs data_dir) as (Hal & Hent & Hout).
  fold sfondo_dir tap_dir in Hout.
  split; [|split; [|split]].
  - unfold len. rewrite <- (entries_length _ Hal), Hent, length_app.
    now rewrite !class_entries_length.
  - intros class_dir filename. unfold json_files.
    rewrite list_elem_of_filter, endswith_spec. tauto.
  - intros class_dir Hin Hdir. split.
    + unfold json_files, os_listdir. unfold os_path_isdir in Hdir.
      destruct (fs !! class_dir) as [[names|c]|]; [discriminate| |];
        reflexivity.
    + rewrite Hout.
      apply elem_of_cons in Hin as [->|Hin].
      * rewrite Hdir. apply elem_of_app. left. apply list_elem_of_singleton.
        reflexivity.
      * apply list_elem_of_singleton in Hin as ->.
        rewrite Hdir. apply elem_of_app. right.
        apply list_elem_of_singleton. reflexivity.
  - intros class_dir. rewrite Hout. intros [Hin|Hin]%elem_of_app.
    + destruct (os_path_isdir fs sfondo_dir) eqn:E.
      * now apply elem_of_nil in Hin.
      * apply list_elem_of_singleton in Hin. now inversion Hin; subst.
    + destruct (os_path_isdir fs tap_dir) eqn:E.
      * now apply elem_of_nil in Hin.
      * apply list_elem_of_singleton in Hin. now inversion Hin; subst.
Qed.

(** Two constructions over trees that list the two class directories
    alike, names in the same order, give the same index and the same
    warnings, whatever else differs. *)
Lemma init_same_listing (fs1 fs2 : gmap string node)
    (data_dir : string) :
  (forall class_name,
     class_name ∈ ["sfondo"; "tap"] ->
     os_path_isdir fs1 (os_path_join data_dir class_name) =
       os_path_isdir fs2 (os_path_join data_dir class_name) /\
     os_listdir fs1 (os_path_join data_dir class_name) =
       os_listdir fs2 (os_path_join data_dir class_name)) ->
  init fs1 data_dir = init fs2 data_dir /\
  entries (snd (init fs1 data_dir)) =
    class_entries fs1 data_dir ("sfondo", 0) ++
    class_entries fs1 data_dir ("tap", 1).
Proof.
  intros Hsame. split; [|apply init_entries].
  destruct (Hsame "sfondo") as [Hd0 Hl0]; [repeat constructor|].
  destruct (Hsame "tap") as [Hd1 Hl1]; [repeat constructor|].
  unfold init, label_map. cbn [fold_left]. unfold add_class.
  rewrite Hd0, Hl0.
  destruct (negb (os_path_isdir fs2 (os_path_join data_dir "sfondo")));
    now rewrite Hd1, Hl1.
Qed.

Lemma class_entries_permutation (fs1 fs2 : gmap string node)
    (data_dir : string) (item : string * Z) :
  os_path_isdir fs1 (os_path_join data_dir (fst item)) =
    os_path_isdir fs2 (os_path_join data_dir (fst item)) ->
  os_listdir fs1 (os_path_join data_dir (fst item)) ≡ₚ
    os_listdir fs2 (os_path_join data_dir (fst item)) ->
  class_entries fs1 data_dir item ≡ₚ class_entries fs2 data_dir item.
Proof.
  intros Hdir Hperm. unfold class_entries, json_files. rewrite Hdir.
  destruct (os_path_isdir fs2 _); [|reflexivity].
  apply Permutation_map. now rewrite Hperm.
Qed.

(** The labels of an index: one 0 per entry of class "sfondo", then one 1
    per entry of class "tap". *)
Lemma init_labels_blocks (fs : gmap string node) (data_dir : string) :
  labels (snd (init fs data_dir)) =
    replicate (length (class_entries fs data_dir ("sfondo", 0))) 0 ++
    replicate (length (class_entries fs data_dir ("tap", 1))) 1.
Proof.
  assert (Hconst : forall (c : Z) (l : list string),
            map (fun _ => c) l = replicate (length l) c).
  { intros c l. induction l as [|a l IH]; [reflexivity|].
    cbn [map length replicate]. now rewrite IH. }
  unfold init, label_map, class_entries, json_files.
  cbn [fold_left fst snd]. unfold add_class.
  destruct (os_path_isdir fs (os_path_join data_dir "sfondo"));
    destruct (os_path_isdir fs (os_path_join data_dir "tap"));
    cbn [negb snd]; rewrite ?add_file_fold; cbn [labels app];
    rewrite ?length_map, ?Hconst; cbn [length replicate app];
    rewrite ?app_nil_r; reflexivity.
Qed.

(** C9, as the code has it. The index holds the entries of class "sfondo"
    followed by those of class "tap"; within a class the entries follow
    the order in which [os.listdir] returns the names, which the code
    does not sort. Two constructions over trees that hold the same names
    in the two class directories therefore give the same warnings, the
    same size, the same label sequence and, class by class, the same
    entries up to their order; they give the same entry sequence when the
    two enumerations return the names in the same order. *)
Theorem init_entries_up_to_listing_order (fs1 fs2 : gmap string node)
    (data_dir : string) :
  (forall class_name,
     class_name ∈ ["sfondo"; "tap"] ->
     os_path_isdir fs1 (os_path_join data_dir class_name) =
       os_path_isdir fs2 (os_path_join data_dir class_name) /\
     os_listdir fs1 (os_path_join data_dir class_name) ≡ₚ
       os_listdir fs2 (os_path_join data_dir class_name)) ->
  (forall fs, fs = fs1 \/ fs = fs2 ->
     entries (snd (init fs data_dir)) =
       class_entries fs data_dir ("sfondo", 0) ++
       class_entries fs data_dir ("tap", 1)) /\
  (forall item, item ∈ label_map ->
     class_entries fs1 data_dir item ≡ₚ class_entries fs2 data_dir item) /\
  entries (snd (init fs1 data_dir)) ≡ₚ entries (snd (init fs2 data_dir)) /\
  labels (snd (init fs1 data_dir)) = labels (snd (init fs2 data_dir)) /\
  len (snd (init fs1 data_dir)) = len (snd (init fs2 data_dir)) /\
  fst (init fs1 data_dir) = fst (init fs2 data_dir) /\
  ((forall class_name,
      class_name ∈ ["sfondo"; "tap"] ->
      os_listdir fs1 (os_path_join data_dir class_name) =
        os_listdir fs2 (os_path_join data_dir class_name)) ->
   init fs1 data_dir = init fs2 data_dir).
Proof.
  intros Hsame.
  destruct (Hsame "sfondo") as [Hd0 Hl0]; [repeat constructor|].
  destruct (Hsame "tap") as [Hd1 Hl1]; [repeat constructor|].
  pose proof (class_entries_permutation fs1 fs2 data_dir ("sfondo", 0)
                Hd0 Hl0) as Hp0.
  pose proof (class_entries_permutation fs1 fs2 data_dir ("tap", 1)
                Hd1 Hl1) as Hp1.
  destruct (init_entries fs1 data_dir) as (Hal1 & He1 & Ho1).
  destruct (init_entries fs2 data_dir) as (Hal2 & He2 & Ho2).
  assert (Hlabels : labels (snd (init fs1 data_dir)) =
                    labels (snd (init fs2 data_dir))).
  { rewrite !init_labels_blocks.
    now rewrite (Permutation_length Hp0), (Permutation_length Hp1). }
  split; [intros fs [-> | ->]; assumption|].
  split.
  { intros item Hitem. unfold label_map in Hitem.
    apply elem_of_cons in Hitem as [->|Hitem]; [exact Hp0|].
    apply list_elem_of_singleton in Hitem as ->. exact Hp1. }
  split; [rewrite He1, He2; now apply Permutation_app|].
  split; [exact Hlabels|].
  split.
  { unfold len. unfold aligned in Hal1, Hal2.
    now rewrite Hal1, Hal2, Hlabels. }
  split; [rewrite Ho1, Ho2; now rewrite Hd0, Hd1|].
  intros Heq. apply init_same_listing.
  intros class_name Hclass. split; [|now apply Heq].
  now apply Hsame.
Qed.

End DatasetFacts.

(** ** Reading samples *)

Section GetitemFacts.
Context `{PyFloat}.

Lemma py_index_lookup {A} (l : list A) (i : Z) (a : A) :
  0 <= i < Z.of_nat (length l) ->
  l !! Z.to_nat i = Some a ->
  py_index l i = Return a.
Proof.
  intros Hi Ha. unfold py_index.
  destruct (Z.ltb_spec i 0); [lia|].
  destruct (Z.leb_spec 0 i); [|lia].
  destruct (Z.ltb_spec i (Z.of_nat (length l))); [|lia].
  simpl. now rewrite Ha.
Qed.

Lemma open_read_file (fs : gmap string node) (p : string) (c : content) :
  fs !! p = Some (File c) -> open_read fs p = Return c.
Proof. unfold open_read. now intros ->. Qed.

(** One frame of [__getitem__] on a sample whose array has the wrong
    shape: the warning, then the call on the next index. *)
Lemma getitem_bad_shape_step (depth : nat) (fs : gmap string node)
    (self : HandGestureDataset) (i : Z) (path : string) (data : json)
    (features : ndarray) :
  0 <= i < len self ->
  data_files self !! Z.to_nat i = Some path ->
  fs !! path = Some (File (Json data)) ->
  extract_features data = Return features ->
  shape features <> [NUM_FEATURES; WINDOW_SIZE] ->
  getitem (S depth) fs self i =
    (MsgBadShape path (shape features) ::
       printed (getitem depth fs self ((i + 1) mod len self)),
     result (getitem depth fs self ((i + 1) mod len self))).
Proof.
  intros Hi Hpath Hfile Hfeat Hshape.
  cbn [getitem].
  rewrite (py_index_lookup _ _ _ Hi Hpath).
  unfold io_lift at 1. unfold io_bind at 1.
  rewrite (open_read_file _ _ _ Hfile).
  unfold io_lift at 1. unfold io_bind at 1.
  rewrite Hfeat.
  unfold io_lift at 1. unfold io_bind at 1.
  unfold shape_ok. rewrite bool_decide_eq_false_2 by exact Hshape.
  cbn [negb].
  destruct (Z.eqb_spec (len self) 0) as [E|_]; [lia|].
  unfold io_print, io_bind, printed, result.
  destruct (getitem depth fs self ((i + 1) mod len self)) as [out r].
  simpl. now destruct r.
Qed.

(** C1. When the file at index [i] parses as JSON and the array built
    from it does not have shape (3, 25), [get(i)] prints a warning and
    returns what the call on [(i + 1) mod size()] returns, one frame
    deeper: the same value or the same exception, wrapping from the last
    index to index 0. *)
Theorem getitem_bad_shape_falls_through (depth : nat)
    (fs : gmap string node) (self : HandGestureDataset) (i : Z)
    (path : string) (data : json) (features : ndarray) :
  0 <= i < len self ->
  data_files self !! Z.to_nat i = Some path ->
  fs !! path = Some (File (Json data)) ->
  extract_features data = Return features ->
  shape features <> [NUM_FEATURES; WINDOW_SIZE] ->
  let next := (i + 1) mod len self in
  0 <= next < len self /\
  (i = len self - 1 -> next = 0) /\
  result (getitem (S depth) fs self i) = result (getitem depth fs self next) /\
  printed (getitem (S depth) fs self i) =
    MsgBadShape path (shape features) :: printed (getitem depth fs self next) /\
  (forall r,
     (exists d, result (getitem d fs self i) = Return r) <->
     (exists d, result (getitem d fs self next) = Return r)).
Proof.
  intros Hi Hpath Hfile Hfeat Hshape next.
  assert (Hstep : forall d, getitem (S d) fs self i =
            (MsgBadShape path (shape features) ::
               printed (getitem d fs self next),
             result (getitem d fs self next))).
  { intros d. now apply (getitem_bad_shape_step d fs self i path data). }
  split; [apply Z.mod_pos_bound; lia|].
  split.
  { intros ->. unfold next.
    replace (len self - 1 + 1) with (len self) by lia.
    apply Z.mod_same. lia. }
  split; [now rewrite Hstep|].
  split; [now rewrite Hstep|].
  intros r. split; intros [d Hd].
  - destruct d as [|d]; [discriminate|].
    exists d. now rewrite Hstep in Hd.
  - exists (S d). now rewrite Hstep.
Qed.

(** C4, as the code has it. When [json.load] raises [JSONDecodeError]
    on the file at index [i] (its text is not a JSON document), [get(i)]
    does not raise: it prints the failure and returns the all-zero matrix
    of shape (3, 25) with label index 0, whatever label the index holds
    for [i]. No other failure of the read is caught: an exception that
    [json.load] raises otherwise leaves [get(i)], nothing printed. *)
Theorem getitem_json_decode_error_gives_zeros (depth : nat)
    (fs : gmap string node) (self : HandGestureDataset) (i : Z)
    (path : string) (c : content) :
  0 <= i < len self ->
  data_files self !! Z.to_nat i = Some path ->
  fs !! path = Some (File c) ->
  (c = NotJson ->
   exists features,
     getitem (S depth) fs self i =
       ([MsgJsonError path], Return (features, 0)) /\
     shape features = [3%nat; 25%nat] /\
     elements features = replicate 75 (np_float32 f_zero)) /\
  (forall e,
     c = Unreadable e -> getitem (S depth) fs self i = ([], Raise e)).
Proof.
  intros Hi Hpath Hfile.
  assert (Hopen : getitem (S depth) fs self i =
            match c with
            | NotJson =>
                ([MsgJsonError path],
                 Return (torch_zeros NUM_FEATURES WINDOW_SIZE, 0))
            | Unreadable e => ([], Raise e)
            | Json data => getitem (S depth) fs self i
            end).
  { destruct c; try reflexivity; cbn [getitem];
      rewrite (py_index_lookup _ _ _ Hi Hpath);
      unfold io_lift at 1; unfold io_bind at 1;
      rewrite (open_read_file _ _ _ Hfile); reflexivity. }
  split.
  - intros ->. exists (torch_zeros NUM_FEATURES WINDOW_SIZE).
    split; [exact Hopen|split; reflexivity].
  - intros e ->. exact Hopen.
Qed.

(** *** Well-formed windows *)

Lemma outcome_mapM_Forall2 {A B} (f : A -> outcome B) (l : list A)
    (ys : list B) :
  Forall2 (fun a b => f a = Return b) l ys ->
  outcome_mapM f l = Return ys.
Proof.
  induction 1 as [|a b l ys Hab _ IH]; simpl; [reflexivity|].
  now rewrite Hab, IH.
Qed.

Lemma lookup_map {A B} (f : A -> B) (l : list A) (i : nat) :
  map f l !! i = f <$> (l !! i).
Proof.
  revert i. induction l as [|a l IH]; intros [|i]; simpl; auto.
Qed.

(** The position of a cell in the row-major layout of the rows
    [map (g key) frames], one row per key. *)
Lemma lookup_rows {A B K} (g : K -> A -> B) (frames : list A)
    (keys : list K) (c t : nat) (key : K) (frame : A) :
  keys !! c = Some key ->
  frames !! t = Some frame ->
  flat_map (fun k => map (g k) frames) keys !! (c * length frames + t)%nat =
    Some (g key frame).
Proof.
  revert c. induction keys as [|k keys IH]; intros c Hkey Hframe.
  - discriminate.
  - cbn [flat_map]. destruct c as [|c].
    + injection Hkey as ->. simpl.
      rewrite lookup_app_l.
      * now rewrite lookup_map, Hframe.
      * rewrite length_map. now apply lookup_lt_Some in Hframe.
    + simpl in Hkey. rewrite lookup_app_r by (rewrite length_map; simpl; lia).
      rewrite length_map.
      replace (S c * length frames + t - length frames)%nat
        with (c * length frames + t)%nat by (simpl; lia).
      now apply IH.
Qed.

Lemma np_shape_array (items : list json) :
  np_shape (JArray items) =
  match map np_shape items with
  | [] => Some [0%nat]
  | s :: ss =>
      if forallb (same_shape s) ss then
        match s with
        | Some dims => Some (length items :: dims)
        | None => None
        end
      else None
  end.
Proof. reflexivity. Qed.

Lemma np_leaves_array (items : list json) :
  np_leaves (JArray items) = flat_map np_leaves items.
Proof. reflexivity. Qed.

(** A number is a scalar to NumPy, and its conversion succeeds. *)
Lemma numeric_scalar (v : json) :
  numeric v = true ->
  np_shape v = Some [] /\ np_leaves v = [v] /\
  exists x, np_setitem v = Return x.
Proof.
  destruct v; try discriminate; simpl; intros Hnum.
  - apply bool_decide_eq_true in Hnum as [x Hx].
    rewrite Hx. eauto.
  - eauto.
Qed.

(** A list of numbers is a one-dimensional row. *)
Lemma np_row (vs : list json) :
  Forall (fun v => numeric v = true) vs ->
  np_shape (JArray vs) = Some [length vs] /\
  np_leaves (JArray vs) = vs /\
  exists xs, Forall2 (fun v x => np_setitem v = Return x) vs xs.
Proof.
  intros Hnum.
  assert (Hshapes : map np_shape vs = map (fun _ => Some []) vs).
  { induction Hnum as [|v vs Hv _ IH]; simpl; [reflexivity|].
    destruct (numeric_scalar v Hv) as (-> & _). now rewrite IH. }
  split; [|split].
  - rewrite np_shape_array, Hshapes.
    destruct vs as [|v vs]; [reflexivity|]. cbn [map].
    replace (forallb (same_shape (Some [])) (map (fun _ => Some []) vs))
      with true; [reflexivity|].
    clear. induction vs as [|v vs IH]; [reflexivity|].
    cbn [map forallb]. rewrite <- IH. reflexivity.
  - clear Hshapes. rewrite np_leaves_array.
    induction Hnum as [|v vs Hv _ IH]; simpl; [reflexivity|].
    destruct (numeric_scalar v Hv) as (_ & -> & _). simpl.
    now rewrite IH.
  - clear Hshapes. induction Hnum as [|v vs Hv _ [xs IH]].
    + exists []. constructor.
    + destruct (numeric_scalar v Hv) as (_ & _ & x & Hx).
      exists (x :: xs). now constructor.
Qed.

(** The array built from three rows of numbers of one length. *)
Lemma np_array_rows (r0 r1 r2 : list json) (n : nat) :
  Forall (fun v => numeric v = true) r0 ->
  Forall (fun v => numeric v = true) r1 ->
  Forall (fun v => numeric v = true) r2 ->
  length r0 = n -> length r1 = n -> length r2 = n ->
  exists xs,
    np_array (JArray [JArray r0; JArray r1; JArray r2]) =
      Return {| shape := [3%nat; n]; elements := xs |} /\
    Forall2 (fun v x => np_setitem v = Return x) (r0 ++ r1 ++ r2 ++ []) xs.
Proof.
  intros H0 H1 H2 L0 L1 L2.
  destruct (np_row r0 H0) as (S0 & V0 & xs0 & F0).
  destruct (np_row r1 H1) as (S1 & V1 & xs1 & F1).
  destruct (np_row r2 H2) as (S2 & V2 & xs2 & F2).
  exists (xs0 ++ xs1 ++ xs2 ++ []).
  assert (F : Forall2 (fun v x => np_setitem v = Return x)
                (r0 ++ r1 ++ r2 ++ []) (xs0 ++ xs1 ++ xs2 ++ [])).
  { repeat apply Forall2_app; auto. }
  split; [|exact F].
  unfold np_array.
  rewrite np_shape_array. cbn [map].
  rewrite S0, S1, S2, L0, L1, L2. cbn [forallb].
  unfold same_shape. rewrite bool_decide_eq_true_2 by reflexivity.
  cbn [andb length].
  rewrite np_leaves_array. cbn [flat_map]. rewrite V0, V1, V2.
  now rewrite (outcome_mapM_Forall2 _ _ _ F).
Qed.

Lemma signal_value_numeric (key : string) (item : json) :
  key ∈ SIGNALS -> frame_record item ->
  numeric (signal_value key item) = true.
Proof.
  intros Hkey (members & -> & Hnum). simpl.
  destruct (assoc key members) as [v|] eqn:E; simpl; [|reflexivity].
  now apply (Hnum key).
Qed.

(** The comprehension over a window of frame records. *)
Lemma signal_frames (key : string) (frames : list json) :
  Forall frame_record frames ->
  signal key (JArray frames) = Return (map (signal_value key) frames).
Proof.
  intros Hframes. unfold signal, py_iter.
  apply outcome_mapM_Forall2.
  induction Hframes as [|item frames (members & -> & _) _ IH]; simpl.
  - constructor.
  - constructor; [|exact IH]. simpl. now destruct (assoc key members).
Qed.

(** C6. When the file at index [i] is a JSON array of exactly 25 frame
    records, [get(i)] prints nothing, does not raise and returns, with the
    label of [i], a matrix of shape exactly (3, 25) whose rows are, in this
    order, velocity, acceleration and stability ratio: cell (c, t) is the
    conversion of the value frame [t] holds for signal [c], and it is 0.0
    where frame [t] lacks that key. *)
Theorem getitem_valid_window (depth : nat) (fs : gmap string node)
    (self : HandGestureDataset) (i : Z) (path : string)
    (frames : list json) (label : Z) :
  0 <= i < len self ->
  data_files self !! Z.to_nat i = Some path ->
  labels self !! Z.to_nat i = Some label ->
  fs !! path = Some (File (Json (JArray frames))) ->
  length frames = WINDOW_SIZE ->
  Forall frame_record frames ->
  exists features,
    getitem (S depth) fs self i = ([], Return (features, label)) /\
    shape features = [3%nat; 25%nat] /\
    Forall2 (fun v x => np_setitem v = Return x)
      (flat_map (fun key => map (signal_value key) frames) SIGNALS)
      (elements features) /\
    (forall c t key members,
       SIGNALS !! c = Some key ->
       frames !! t = Some (JObject members) ->
       assoc key members = None ->
       elements features !! (c * 25 + t)%nat = Some (np_float32 f_zero)).
Proof.
  intros Hi Hpath Hlabel Hfile Hlen Hframes.
  assert (Hrow : forall key, key ∈ SIGNALS ->
            Forall (fun v => numeric v = true)
                   (map (signal_value key) frames)).
  { intros key Hkey. apply List.Forall_map.
    eapply Forall_impl; [exact Hframes|].
    intros item. now apply signal_value_numeric. }
  destruct (np_array_rows
              (map (signal_value "relativeYVelocity") frames)
              (map (signal_value "relativeYAcceleration") frames)
              (map (signal_value "stabilityRatio") frames)
              25%nat) as (xs & Harr & Hxs);
    try (apply Hrow; unfold SIGNALS; repeat constructor);
    try (rewrite length_map; exact Hlen).
  exists {| shape := [3%nat; 25%nat]; elements := xs |}.
  split; [|split; [reflexivity|split; [exact Hxs|]]].
  - cbn [getitem].
    rewrite (py_index_lookup _ _ _ Hi Hpath).
    unfold io_lift at 1. unfold io_bind at 1.
    rewrite (open_read_file _ _ _ Hfile).
    unfold io_lift at 1. unfold io_bind at 1.
    unfold extract_features. rewrite !signal_frames by exact Hframes.
    rewrite Harr.
    unfold io_lift at 1. unfold io_bind at 1.
    assert (Hl : 0 <= i < Z.of_nat (length (labels self))).
    { apply lookup_lt_Some in Hlabel. lia. }
    rewrite (py_index_lookup _ _ _ Hl Hlabel).
    reflexivity.
  - intros c t key members Hkey Hframe Hmiss. cbn [elements].
    pose proof (lookup_rows signal_value frames SIGNALS c t key _
                  Hkey Hframe) as Hcell.
    rewrite Hlen in Hcell. change WINDOW_SIZE with 25%nat in Hcell.
    destruct (Forall2_lookup_l _ _ _ _ _ Hxs Hcell) as (x & Hx & Hconv).
    rewrite Hx. simpl in Hconv. rewrite Hmiss in Hconv. simpl in Hconv.
    now injection Hconv as <-.
Qed.

End GetitemFacts.

(** ** The batch assembler *)

Section BatchFacts.

Lemma batch_sampler_drop_length (b : nat) (acc indices : list nat) :
  (length acc < b)%nat ->
  length (batch_sampler b true acc indices) =
    ((length acc + length indices) / b)%nat.
Proof.
  revert acc. induction indices as [|idx rest IH]; intros acc Hacc.
  - simpl. rewrite andb_false_r, Nat.add_0_r.
    symmetry. now apply Nat.div_small.
  - cbn [batch_sampler]. rewrite length_app. cbn [length].
    destruct (Nat.eqb_spec (length acc + 1) b) as [E|E].
    + cbn [length]. rewrite IH by (simpl; lia). simpl.
      replace (length acc + S (length rest))%nat
        with (1 * b + length rest)%nat by lia.
      rewrite Nat.div_add_l by lia. reflexivity.
    + rewrite IH by (rewrite length_app; simpl; lia).
      rewrite length_app. simpl. f_equal. lia.
Qed.


Lemma batch_sampler_drop_split (b : nat) (acc indices : list nat) :
  (length acc < b)%nat ->
  exists dropped,
    acc ++ indices = concat (batch_sampler b true acc indices) ++ dropped /\
    length dropped = ((length acc + length indices) mod b)%nat.
Proof.
  revert acc. induction indices as [|idx rest IH]; intros acc Hacc.
  - exists acc. simpl. rewrite andb_false_r, Nat.add_0_r. split.
    + now rewrite app_nil_r.
    + symmetry. now apply Nat.mod_small.
  - cbn [batch_sampler].
    destruct (Nat.eqb_spec (length (acc ++ [idx])) b) as [E|E].
    + destruct (IH []) as (dropped & Hsplit & Hlen); [simpl; lia|].
      exists dropped. split.
      * cbn [concat]. simpl in Hsplit. rewrite <- app_assoc, <- Hsplit.
        now rewrite <- app_assoc.
      * rewrite Hlen. rewrite length_app in E. simpl in *.
        replace (length acc + S (length rest))%nat
          with (length rest + 1 * b)%nat by lia.
        now rewrite Nat.Div0.mod_add.
    + rewrite length_app in E. simpl in E.
      destruct (IH (acc ++ [idx])) as (dropped & Hsplit & Hlen).
      { rewrite length_app. simpl. lia. }
      exists dropped. split.
      * rewrite <- Hsplit. now rewrite <- app_assoc.
      * rewrite Hlen, length_app. simpl. f_equal. lia.
Qed.

Lemma batch_sampler_keep_concat (b : nat) (acc indices : list nat) :
  concat (batch_sampler b false acc indices) = acc ++ indices.
Proof.
  revert acc. induction indices as [|idx rest IH]; intros acc.
  - cbn [batch_sampler]. rewrite andb_true_r, app_nil_r.
    destruct acc; simpl; [reflexivity|]. now rewrite app_nil_r.
  - cbn [batch_sampler].
    destruct (length (acc ++ [idx]) =? b)%nat.
    + cbn [concat]. rewrite IH. simpl. now rewrite <- app_assoc.
    + rewrite IH. now rewrite <- app_assoc.
Qed.


End BatchFacts.

(** ** The scripts *)

Section ScriptFacts.
Context `{Torch}.


(** An epoch over fewer samples than a batch has no batch to process and
    stops at the read of [loss]. *)
Lemma train_epochs_no_batch (todo epoch limit : nat)
    (fs : gmap string node) (dataset : HandGestureDataset)
    (st : train_state) :
  (length (data_files dataset) < BATCH_SIZE)%nat ->
  loss st = None ->
  train_epochs (S todo) epoch limit fs dataset st = ([], Raise NameError).
Proof.
  intros Hsmall Hloss. cbn [train_epochs].
  pose proof (randperm_perm (generator st) (length (data_files dataset)))
    as Hperm.
  destruct (randperm (generator st) (length (data_files dataset)))
    as [order g'].
  simpl in Hperm.
  assert (Hnone : train_loader order = []).
  { apply length_zero_iff_nil. unfold train_loader, batches.
    rewrite batch_sampler_drop_length by (unfold BATCH_SIZE; simpl; lia).
    cbn [length Nat.add].
    rewrite (Permutation_length Hperm), length_seq.
    now apply Nat.div_small. }
  rewrite Hnone. simpl. rewrite Hloss. reflexivity.
Qed.

(** C10. A training run over a dataset of 1 to 15 samples builds the
    model, starts the first epoch, processes no batch and stops at the
    epoch's progress line with [NameError] (the variable [loss] was never
    assigned): no optimisation step is taken, no epoch line is printed,
    and the process ends with the status of an uncaught exception. *)
Theorem train_model_small_dataset_name_error (limit : nat)
    (fs : gmap string node) (g : rng) :
  0 < len (snd (init fs DATA_DIR)) < 16 ->
  train_loader
    (fst (randperm (snd (new_model g))
            (length (data_files (snd (init fs DATA_DIR)))))) = [] /\
  train_model limit fs g =
    (Print LoadingData ::
       map (fun m => Print (Dataset m)) (fst (init fs DATA_DIR)) ++
       [Print InitModel; Work ModelCreated; Print StartTraining],
     Raise NameError) /\
  exit_status (train_model limit fs g) = 1.
Proof.
  intros Hsize.
  assert (Hrun : train_model limit fs g =
    (Print LoadingData ::
       map (fun m => Print (Dataset m)) (fst (init fs DATA_DIR)) ++
       [Print InitModel; Work ModelCreated; Print StartTraining],
     Raise NameError)).
  { unfold train_model.
    destruct (init fs DATA_DIR) as [out ds]. simpl in Hsize.
    destruct (Z.eqb_spec (len ds) 0) as [E|_]; [lia|].
    destruct (new_model g) as [m g']. change NUM_EPOCHS with (S 499).
    rewrite train_epochs_no_batch;
      [|unfold len in Hsize; unfold BATCH_SIZE; lia|reflexivity].
    unfold say, perform, io_print, from_dataset, io_bind. simpl.
    reflexivity. }
  split; [|split; [exact Hrun|now rewrite Hrun]].
  unfold train_loader, batches. apply length_zero_iff_nil.
  rewrite batch_sampler_drop_length by (unfold BATCH_SIZE; simpl; lia).
  cbn [length Nat.add].
  rewrite (Permutation_length (randperm_perm _ _)), length_seq.
  apply Nat.div_small. unfold len in Hsize. unfold BATCH_SIZE. lia.
Qed.

(** C3, as the code has it. When the enumeration of a run's dataset
    directory yields no sample, the script prints an error line and calls
    [exit()]: the run stops there, having done no work after its imports
    (no model built or loaded, no optimisation step, no sample scored),
    and the process exit status is 0. *)
Theorem empty_dataset_exits_with_status_zero (s : script) (limit : nat)
    (fs : gmap string node) (g : rng) :
  result (imports s limit fs g) = Return tt ->
  len (snd (init fs (dataset_dir s))) = 0 ->
  exists own,
    run s limit fs g =
      (printed (imports s limit fs g) ++ own, Raise (SystemExit None)) /\
    own = Print (loading_line s) ::
          map (fun m => Print (Dataset m)) (fst (init fs (dataset_dir s))) ++
          [Print (no_data_line s)] /\
    Forall is_print own /\
    exit_status (run s limit fs g) = 0.
Proof.
  intros Himp Hempty.
  assert (Hown : forall l1 out l2,
            Forall is_print
              (Print l1 :: map (fun m => Print (Dataset m)) out ++ [Print l2])).
  { intros l1 out l2. constructor; [exact I|].
    apply Forall_app. split; [|repeat constructor].
    apply List.Forall_map. apply Forall_forall. now intros. }
  exists (Print (loading_line s) ::
          map (fun m => Print (Dataset m)) (fst (init fs (dataset_dir s))) ++
          [Print (no_data_line s)]).
  split; [|split; [reflexivity|split; [apply Hown|]]].
  - destruct s; simpl in *.
    + unfold train_model.
      destruct (init fs DATA_DIR) as [out ds]. simpl in Hempty.
      rewrite Hempty. simpl.
      unfold say, io_print, from_dataset, io_bind. simpl.
      reflexivity.
    + unfold evaluate_model.
      destruct (train_model limit fs g) as [out0 [saved|e]];
        [|discriminate].
      unfold io_bind at 1. simpl.
      unfold evaluate.
      destruct (init fs TEST_DATA_DIR) as [out ds]. simpl in Hempty.
      rewrite Hempty. simpl.
      unfold say, io_print, from_dataset, io_bind. simpl.
      now rewrite ?app_nil_r.
  - destruct s; simpl in *.
    + unfold train_model.
      destruct (init fs DATA_DIR) as [out ds]. simpl in Hempty.
      rewrite Hempty. reflexivity.
    + unfold evaluate_model.
      destruct (train_model limit fs g) as [out0 [saved|e]];
        [|discriminate].
      unfold io_bind at 1. unfold evaluate.
      destruct (init fs TEST_DATA_DIR) as [out ds]. simpl in Hempty.
      rewrite Hempty. reflexivity.
Qed.

(** *** The evaluation pass and its metrics *)

Lemma io_bind_result {M A B} (c : io M A) (k : A -> io M B) (b : B) :
  result (io_bind c k) = Return b ->
  exists a, result c = Return a /\ result (k a) = Return b.
Proof.
  destruct c as [out [a|e]]; simpl; [|discriminate].
  destruct (k a) as [out' r] eqn:E. simpl. intros ->.
  exists a. now rewrite E.
Qed.

Lemma io_bind_return {M A B} (c : io M A) (k : A -> io M B) (a : A) :
  result c = Return a -> result (io_bind c k) = result (k a).
Proof.
  destruct c as [out r]. simpl. intros ->. simpl. now destruct (k a).
Qed.

Lemma io_bind_raise {M A B} (c : io M A) (k : A -> io M B) (e : exn) :
  result c = Raise e -> result (io_bind c k) = Raise e.
Proof. destruct c as [out r]. simpl. now intros ->. Qed.

Lemma py_index_elem {A} (l : list A) (i : Z) (a : A) :
  py_index l i = Return a -> a ∈ l.
Proof.
  unfold py_index.
  destruct (_ && _); [|discriminate].
  destruct (l !! _) as [a'|] eqn:E; [|discriminate].
  intros [= <-]. now apply list_elem_of_lookup_2 in E.
Qed.

Lemma add_class_labels (fs : gmap string node) (data_dir : string)
    (out : list message) (self : HandGestureDataset) (item : string * Z) :
  Forall is_class (labels self) -> is_class (snd item) ->
  Forall is_class (labels (snd (add_class fs data_dir (out, self) item))).
Proof.
  intros Hself Hitem. destruct item as [label_name label_idx].
  unfold add_class.
  destruct (negb _); [exact Hself|]. simpl.
  rewrite add_file_fold. simpl. apply Forall_app. split; [exact Hself|].
  apply List.Forall_map. apply Forall_forall. now intros.
Qed.

(** The labels of an index built by [__init__] are class indices. *)
Lemma init_labels (fs : gmap string node) (data_dir : string) :
  Forall is_class (labels (snd (init fs data_dir))).
Proof.
  unfold init, label_map. cbn [fold_left].
  destruct (add_class fs data_dir _ ("sfondo", 0)) as [out1 ds1] eqn:E1.
  apply add_class_labels; [|now right].
  change ds1 with (snd (out1, ds1)). rewrite <- E1.
  apply add_class_labels; [constructor|now left].
Qed.

Lemma getitem_label (fs : gmap string node) (self : HandGestureDataset) :
  Forall is_class (labels self) ->
  forall depth i x l,
    result (getitem depth fs self i) = Return (x, l) -> is_class l.
Proof.
  intros Hlabels. induction depth as [|depth IH]; intros i x l Hres.
  - discriminate.
  - cbn [getitem] in Hres.
    apply io_bind_result in Hres as (path & _ & Hres).
    apply io_bind_result in Hres as (c & _ & Hres).
    destruct c as [|e|data].
    + injection Hres as _ <-. now left.
    + discriminate.
    + apply io_bind_result in Hres as (features & _ & Hres).
      destruct (negb (shape_ok features)).
      * apply io_bind_result in Hres as (u & _ & Hres).
        destruct (len self =? 0); [discriminate|].
        now apply IH in Hres.
      * apply io_bind_result in Hres as (label & Hlabel & Hres).
        injection Hres as _ <-.
        apply py_index_elem in Hlabel.
        now apply (proj1 (Forall_forall _ _) Hlabels).
Qed.

Lemma fetch_samples (limit : nat) (fs : gmap string node)
    (dataset : HandGestureDataset) :
  Forall is_class (labels dataset) ->
  forall batch samples,
    result (fetch limit fs dataset batch) = Return samples ->
    length samples = length batch /\
    Forall (fun sample => is_class (snd sample)) samples.
Proof.
  intros Hlabels. unfold fetch.
  induction batch as [|i batch IH]; intros samples Hres.
  - injection Hres as <-. split; [reflexivity|constructor].
  - cbn [io_mapM] in Hres.
    apply io_bind_result in Hres as ([x l] & Hone & Hres).
    apply io_bind_result in Hres as (rest & Hrest & Hres).
    injection Hres as <-.
    destruct (IH rest Hrest) as [Hlen Hall].
    split; [simpl; now rewrite Hlen|].
    constructor; [|exact Hall].
    now apply (getitem_label fs dataset Hlabels limit (Z.of_nat i) x l).
Qed.

Lemma argmax_class (scores : logit * logit) : is_class (argmax scores).
Proof. unfold argmax. destruct (picks_second _ _); [now right|now left]. Qed.

Lemma eval_fold (limit : nat) (fs : gmap string node)
    (dataset : HandGestureDataset) (p : parameters) :
  Forall is_class (labels dataset) ->
  forall bs acc r,
    result (io_foldM (eval_batch limit fs dataset p) acc bs) = Return r ->
    Forall is_class (fst acc) -> Forall is_class (snd acc) ->
    length (fst r) = (length (fst acc) + length (concat bs))%nat /\
    length (snd r) = (length (snd acc) + length (concat bs))%nat /\
    Forall is_class (fst r) /\ Forall is_class (snd r).
Proof.
  intros Hlabels. induction bs as [|batch bs IH]; intros acc r Hres HT HP.
  - injection Hres as <-. simpl. rewrite !Nat.add_0_r. auto.
  - cbn [io_foldM] in Hres.
    apply io_bind_result in Hres as (acc' & Hbatch & Hres).
    unfold eval_batch in Hbatch.
    apply io_bind_result in Hbatch as (samples & Hfetch & Hbatch).
    injection Hbatch as <-.
    destruct (fetch_samples limit fs dataset Hlabels batch samples Hfetch)
      as [Hlen Hall].
    apply IH in Hres as (H1 & H2 & H3 & H4); cbn [fst snd].
    + cbn [fst snd] in H1, H2. rewrite !length_app, !length_map in *.
      cbn [concat]. rewrite length_app. repeat split; auto; lia.
    + apply Forall_app. split; [exact HT|].
      apply List.Forall_map. exact Hall.
    + apply Forall_app. split; [exact HP|].
      apply List.Forall_map. apply Forall_forall. intros. apply argmax_class.
Qed.

Lemma named_classes (ys : list Z) :
  Forall is_class ys -> named ys = Return (map class_name_of ys).
Proof.
  intros Hys. unfold named. apply outcome_mapM_Forall2.
  induction Hys as [|y ys [-> | ->] _ IH]; constructor; auto.
Qed.

Lemma class_name_of_inj (a b : Z) :
  is_class a -> is_class b -> class_name_of a = class_name_of b -> a = b.
Proof. intros [-> | ->] [-> | ->]; vm_compute; congruence. Qed.

Lemma count_pairs_named (a b : Z) (T P : list Z) :
  is_class a -> is_class b ->
  Forall is_class T -> Forall is_class P ->
  count_pairs (class_name_of a) (class_name_of b)
              (map class_name_of T) (map class_name_of P) =
  count_pairs a b T P.
Proof.
  intros Ha Hb HT. revert P. unfold count_pairs.
  induction HT as [|t T Ht _ IH]; intros P HP; [reflexivity|].
  destruct HP as [|p P Hp HP]; [reflexivity|].
  cbn [map zip zip_with]. rewrite !filter_cons.
  specialize (IH P HP). cbn [zip] in IH.
  destruct (decide ((t, p) = (a, b))) as [E|E].
  - injection E as -> ->. rewrite decide_True by reflexivity.
    simpl. now rewrite IH.
  - rewrite decide_False; [exact IH|].
    intros E'. injection E' as E1 E2. apply E.
    f_equal; now apply class_name_of_inj.
Qed.

Lemma confusion_row_sum (a : Z) (T P : list Z) :
  length T = length P -> Forall is_class P ->
  (count_pairs a 0%Z T P + count_pairs a 1%Z T P)%nat = count_class a T.
Proof.
  unfold count_pairs, count_class. revert P.
  induction T as [|t T IH]; intros [|p P] Hlen HP; try discriminate;
    [reflexivity|].
  cbn [zip zip_with]. rewrite !filter_cons.
  inversion HP as [|? ? Hp HP']; subst.
  injection Hlen as Hlen. specialize (IH P Hlen HP'). cbn [zip] in IH.
  destruct (decide (t = a)) as [->|Hne].
  - destruct Hp as [-> | ->].
    + rewrite decide_True by reflexivity.
      rewrite decide_False by congruence. simpl. now rewrite <- IH.
    + rewrite decide_False by congruence.
      rewrite decide_True by reflexivity. simpl. rewrite <- IH. lia.
  - rewrite !decide_False by congruence. exact IH.
Qed.

Lemma confusion_column_sum (b : Z) (T P : list Z) :
  length T = length P -> Forall is_class T ->
  (count_pairs 0%Z b T P + count_pairs 1%Z b T P)%nat = count_class b P.
Proof.
  unfold count_pairs, count_class. revert P.
  induction T as [|t T IH]; intros [|p P] Hlen HT; try discriminate;
    [reflexivity|].
  cbn [zip zip_with]. rewrite !filter_cons.
  inversion HT as [|? ? Ht HT']; subst.
  injection Hlen as Hlen. specialize (IH P Hlen HT'). cbn [zip] in IH.
  destruct (decide (p = b)) as [->|Hne].
  - destruct Ht as [-> | ->].
    + rewrite decide_True by reflexivity.
      rewrite decide_False by congruence. simpl. now rewrite <- IH.
    + rewrite decide_False by congruence.
      rewrite decide_True by reflexivity. simpl. rewrite <- IH. lia.
  - rewrite !decide_False by congruence. exact IH.
Qed.

(** C5. In an evaluation run that completes its pass with true labels
    [T] and predicted labels [P], both sequences have one entry per
    sample; the accuracy reported is the fraction of positions where [P]
    agrees with [T] over the dataset size; the confusion matrix reported
    has the true class as row and the predicted class as column, in the
    order "sfondo" (the spec's "background") then "tap"; its row sums are
    the true-class counts and its column sums the predicted-class counts;
    both are printed before the classification report is computed,
    whatever that call does.
    For T = [0;1;1;0] and P = [0;1;0;0] the accuracy is 0.75 and the matrix
    is [[2;0];[1;1]]. *)
Theorem evaluation_metrics (limit : nat) (fs : gmap string node)
    (p : parameters) (T P : list Z) :
  result (eval_pass limit fs (snd (init fs TEST_DATA_DIR)) p) =
    Return (T, P) ->
  let size := length (data_files (snd (init fs TEST_DATA_DIR))) in
  let m := fun a b : Z => count_pairs a b T P in
  let T_named := map class_name_of T in
  let P_named := map class_name_of P in
  let cm := [[m 0 0; m 0 1]; [m 1 0; m 1 1]] in
  (length T = size /\ length P = size) /\
  (Forall is_class T /\ Forall is_class P) /\
  accuracy_score T P = Z.of_nat (count_matches T P) # Pos.of_nat size /\
  confusion_matrix T_named P_named class_names = cm /\
  (Nat.add (m 0 0) (m 0 1) = count_class 0 T /\
   Nat.add (m 1 0) (m 1 1) = count_class 1 T) /\
  (Nat.add (m 0 0) (m 1 0) = count_class 0 P /\
   Nat.add (m 0 1) (m 1 1) = count_class 1 P) /\
  (exists rest outcome,
     report_metrics T P =
       ([Work Metric; Print ResultsHeader;
         Print (Accuracy (Z.of_nat (count_matches T P) # Pos.of_nat size));
         Print MatrixHeader; Print (Matrix cm); Print ReportHeader] ++ rest,
        outcome)) /\
  (Qeq (accuracy_score [0; 1; 1; 0] [0; 1; 0; 0]) 0.75%Q /\
   confusion_matrix (map class_name_of [0; 1; 1; 0])
                    (map class_name_of [0; 1; 0; 0]) class_names =
     [[2; 0]; [1; 1]]%nat).
Proof.
  intros Hpass size m T_named P_named cm.
  pose proof (init_labels fs TEST_DATA_DIR) as Hlabels.
  unfold eval_pass in Hpass.
  apply (eval_fold limit fs _ p Hlabels) in Hpass
    as (HlenT & HlenP & HT & HP); [|constructor|constructor].
  cbn [fst snd length Nat.add] in HlenT, HlenP.
  assert (Hsize : length (concat (test_loader size)) = size).
  { unfold test_loader, batches.
    rewrite batch_sampler_keep_concat. simpl. apply length_seq. }
  fold size in HlenT, HlenP. rewrite Hsize in HlenT, HlenP.
  assert (Hacc : accuracy_score T P =
                 Z.of_nat (count_matches T P) # Pos.of_nat size).
  { unfold accuracy_score. now rewrite HlenT. }
  assert (Hcm : confusion_matrix T_named P_named class_names = cm).
  { unfold confusion_matrix, class_names, cm, m, T_named, P_named.
    cbn [map].
    change "sfondo" with (class_name_of 0).
    change "tap" with (class_name_of 1).
    rewrite !count_pairs_named; auto; try (now left); now right. }
  split; [now split|]. split; [now split|].
  split; [exact Hacc|]. split; [exact Hcm|].
  split.
  { split; apply confusion_row_sum; auto; congruence. }
  split.
  { split; apply confusion_column_sum; auto; congruence. }
  split.
  { unfold report_metrics.
    rewrite (named_classes T HT), (named_classes P HP).
    cbv beta iota zeta delta [io_lift io_bind say perform io_print app].
    fold T_named P_named. rewrite Hcm, Hacc.
    destruct (classification_report T_named P_named class_names)
      as [report|e].
    - now exists [Print report], (Return tt).
    - now exists [], (Raise e). }
  split; reflexivity.
Qed.

End ScriptFacts.

(** * The properties at concrete inputs *)

Section Scenarios.
#[local] Existing Instance rational_floats.
#[local] Existing Instance idle_torch.

Lemma full_frame_record : frame_record full_frame.
Proof.
  eexists. split; [reflexivity|].
  intros key v Hkey Hassoc.
  unfold SIGNALS in Hkey.
  repeat (apply elem_of_cons in Hkey as [->|Hkey]);
    [| | |now apply elem_of_nil in Hkey];
    injection Hassoc as <-; reflexivity.
Qed.

Lemma partial_frame_record : frame_record partial_frame.
Proof.
  eexists. split; [reflexivity|].
  intros key v Hkey Hassoc.
  unfold SIGNALS in Hkey.
  repeat (apply elem_of_cons in Hkey as [->|Hkey]);
    [| | |now apply elem_of_nil in Hkey];
    try discriminate Hassoc; injection Hassoc as <-; reflexivity.
Qed.

(** The index over [fs_small] sends index 0, a short window, to index 1. *)
Lemma getitem_bad_shape_falls_through_witness :
  result (getitem 6 fs_small (snd (init fs_small DATA_DIR)) 0) =
  result (getitem 5 fs_small (snd (init fs_small DATA_DIR)) 1).
Proof.
  edestruct (getitem_bad_shape_falls_through 5 fs_small
               (snd (init fs_small DATA_DIR)) 0
               "dataset/train/sfondo/s0.json" short_window)
    as (_ & _ & W & _).
  - vm_compute. split; [discriminate|reflexivity].
  - vm_compute. reflexivity.
  - vm_compute. reflexivity.
  - vm_compute. reflexivity.
  - vm_compute. intros E. discriminate E.
  - exact W.
Defined.

(** C4 as the spec states it fails: the only file of [fs_garbled] is
    not valid JSON, its bytes are not even text, and [get(0)] raises. *)
Lemma getitem_undecodable_counterexample :
  fs_garbled !! "dataset/train/tap/g.json" =
    Some (File (Unreadable UnicodeDecodeError)) /\
  data_files (snd (init fs_garbled DATA_DIR)) =
    ["dataset/train/tap/g.json"] /\
  ~ exists sample,
      result (getitem 1000 fs_garbled (snd (init fs_garbled DATA_DIR)) 0) =
        Return sample.
Proof.
  split; [vm_compute; reflexivity|]. split; [vm_compute; reflexivity|].
  intros [sample Hsample]. vm_compute in Hsample. discriminate Hsample.
Qed.

(** The file at index 2 of [fs_small] is not JSON and belongs to class
    "tap": the label returned is nevertheless 0. *)
Lemma getitem_json_decode_error_gives_zeros_witness :
  labels (snd (init fs_small DATA_DIR)) !! 2%nat = Some 1 /\
  exists features,
    getitem 1 fs_small (snd (init fs_small DATA_DIR)) 2 =
      ([MsgJsonError "dataset/train/tap/t1.json"], Return (features, 0)) /\
    shape features = [3%nat; 25%nat] /\
    elements features = replicate 75 (np_float32 f_zero).
Proof.
  split; [vm_compute; reflexivity|].
  destruct (getitem_json_decode_error_gives_zeros 0 fs_small
              (snd (init fs_small DATA_DIR)) 2
              "dataset/train/tap/t1.json" NotJson) as [Hzeros _].
  - vm_compute. split; [discriminate|reflexivity].
  - vm_compute. reflexivity.
  - vm_compute. reflexivity.
  - now apply Hzeros.
Defined.

(** The file at index 1 of [fs_small] is a window of 25 frame records,
    the second of which lacks the acceleration: cell (1, 1) is 0.0. *)
Lemma getitem_valid_window_witness :
  exists features,
    result (getitem 1 fs_small (snd (init fs_small DATA_DIR)) 1) =
      Return (features, 1) /\
    shape features = [3%nat; 25%nat] /\
    elements features !! 26%nat = Some (np_float32 f_zero).
Proof.
  destruct (getitem_valid_window 0 fs_small (snd (init fs_small DATA_DIR)) 1
              "dataset/train/tap/t0.json"
              (full_frame :: partial_frame :: replicate 23 full_frame) 1)
    as (features & Hget & Hshape & _ & Hzero).
  - vm_compute. split; [discriminate|reflexivity].
  - vm_compute. reflexivity.
  - vm_compute. reflexivity.
  - vm_compute. reflexivity.
  - reflexivity.
  - repeat (constructor;
            [first [exact full_frame_record|exact partial_frame_record]|]).
    constructor.
  - exists features. split; [now rewrite Hget|]. split; [exact Hshape|].
    eapply (Hzero 1%nat 1%nat "relativeYAcceleration"); reflexivity.
Defined.

Lemma init_empty_window :
  init fs_empty_window TEST_DATA_DIR =
    ([MsgMissingDir "dataset/test/sfondo"],
     {| data_files := ["dataset/test/tap/a.json"]; labels := [1] |}).
Proof. vm_compute. reflexivity. Qed.

(** C2, at the failing input. The test set [fs_empty_window] holds one
    file, an empty JSON array: its matrix has shape (3, 0), the next index
    is (0 + 1) mod 1 = 0, and [get(0)] calls itself until the stack is
    exhausted, whatever the recursion limit; the exception escapes and
    aborts the evaluation with the status of an uncaught exception. *)
Theorem getitem_all_defective_raises (limit : nat) :
  len (snd (init fs_empty_window TEST_DATA_DIR)) = 1 /\
  result (getitem limit fs_empty_window
            (snd (init fs_empty_window TEST_DATA_DIR)) 0) =
    Raise RecursionError /\
  result (evaluate limit fs_empty_window tt) = Raise RecursionError /\
  exit_status (evaluate limit fs_empty_window tt) = 1.
Proof.
  assert (Hget : result (getitem limit fs_empty_window
                   (snd (init fs_empty_window TEST_DATA_DIR)) 0) =
                 Raise RecursionError).
  { induction limit as [|limit IH]; [reflexivity|].
    erewrite (getitem_bad_shape_step limit fs_empty_window _ 0
                "dataset/test/tap/a.json" (JArray [])).
    - exact IH.
    - vm_compute. split; [discriminate|reflexivity].
    - vm_compute. reflexivity.
    - vm_compute. reflexivity.
    - vm_compute. reflexivity.
    - vm_compute. intros E. discriminate E. }
  split; [reflexivity|]. split; [exact Hget|].
  assert (Hrun : result (evaluate limit fs_empty_window tt) =
                 Raise RecursionError).
  { rewrite init_empty_window in Hget. cbn [snd] in Hget.
    unfold evaluate. rewrite init_empty_window.
    rewrite (io_bind_return _ _ tt) by reflexivity.
    rewrite (io_bind_return _ _ tt) by reflexivity.
    change (len _ =? 0) with false. cbv iota.
    do 4 (rewrite (io_bind_return _ _ tt) by reflexivity).
    apply io_bind_raise. unfold eval_pass.
    change (test_loader _) with [[0%nat]].
    cbn [io_foldM]. apply io_bind_raise.
    unfold eval_batch. apply io_bind_raise.
    unfold fetch. cbn [io_mapM]. apply io_bind_raise.
    exact Hget. }
  split; [exact Hrun|].
  unfold exit_status. unfold result in Hrun. now rewrite Hrun.
Qed.

(** C3 as the spec states it fails: a training run over an empty tree
    finds no sample and ends with exit status 0. *)
Lemma empty_dataset_exit_status_counterexample :
  len (snd (init (∅ : gmap string node) DATA_DIR)) = 0 /\
  ~ exit_status (train_model 1000 ∅ tt) <> 0.
Proof.
  split; [reflexivity|].
  intros Hstatus. apply Hstatus. vm_compute. reflexivity.
Qed.

(** A training run over an empty tree. *)
Lemma empty_dataset_exits_with_status_zero_witness :
  result (run Training 1000 ∅ tt) = Raise (SystemExit None) /\
  exit_status (run Training 1000 ∅ tt) = 0.
Proof.
  destruct (@empty_dataset_exits_with_status_zero rational_floats idle_torch
              Training 1000 ∅ tt)
    as (own & Hrun & _ & _ & Hstatus).
  - reflexivity.
  - reflexivity.
  - split; [now rewrite Hrun|exact Hstatus].
Defined.

(** The test set [fs_empty_window] has one sample file and no directory
    for class "sfondo". *)
Lemma init_len_counts_json_files_witness :
  len (snd (init fs_empty_window TEST_DATA_DIR)) = 1 /\
  json_files fs_empty_window "dataset/test/sfondo" = [] /\
  MsgMissingDir "dataset/test/sfondo" ∈
    fst (init fs_empty_window TEST_DATA_DIR).
Proof.
  pose proof (init_len_counts_json_files fs_empty_window TEST_DATA_DIR) as W.
  cbv zeta in W. destruct W as (Hlen & _ & Hmissing & _).
  split; [rewrite Hlen; vm_compute; reflexivity|].
  apply (Hmissing "dataset/test/sfondo").
  - constructor.
  - vm_compute. reflexivity.
Defined.

(** C9 as the spec states it fails: [fs_listed_ab] and [fs_listed_ba]
    hold the same files and differ only in the order in which the
    directory of class "tap" is listed; the two indexes differ. *)
Lemma init_listing_order_counterexample :
  fs_listed_ba =
    <[ "dataset/train/tap" := Dir ["b.json"; "a.json"] ]> fs_listed_ab /\
  fs_listed_ab !! "dataset/train/tap" = Some (Dir ["a.json"; "b.json"]) /\
  ["a.json"; "b.json"] ≡ₚ ["b.json"; "a.json"] /\
  entries (snd (init fs_listed_ab DATA_DIR)) <>
    entries (snd (init fs_listed_ba DATA_DIR)).
Proof.
  split; [reflexivity|]. split; [vm_compute; reflexivity|].
  split; [apply perm_swap|].
  vm_compute. intros E. discriminate E.
Qed.

(** The two listings of the same files give the same labels and the same
    entries up to order. *)
Lemma init_entries_up_to_listing_order_witness :
  entries (snd (init fs_listed_ab DATA_DIR)) ≡ₚ
    entries (snd (init fs_listed_ba DATA_DIR)) /\
  labels (snd (init fs_listed_ab DATA_DIR)) =
    labels (snd (init fs_listed_ba DATA_DIR)).
Proof.
  destruct (init_entries_up_to_listing_order fs_listed_ab fs_listed_ba
              DATA_DIR) as (_ & _ & Hperm & Hlabels & _).
  - intros class_name Hclass.
    repeat (apply elem_of_cons in Hclass as [->|Hclass]);
      [| |now apply elem_of_nil in Hclass].
    + split; vm_compute; reflexivity.
    + split; [vm_compute; reflexivity|].
      change (os_listdir fs_listed_ab (os_path_join DATA_DIR "tap"))
        with ["a.json"; "b.json"].
      change (os_listdir fs_listed_ba (os_path_join DATA_DIR "tap"))
        with ["b.json"; "a.json"].
      apply perm_swap.
  - now split.
Defined.


(** A training run over the three samples of [fs_small]. *)
Lemma train_model_small_dataset_name_error_witness :
  result (train_model 1000 fs_small tt) = Raise NameError /\
  exit_status (train_model 1000 fs_small tt) = 1.
Proof.
  destruct (@train_model_small_dataset_name_error rational_floats idle_torch
              1000 fs_small tt)
    as (_ & Hrun & Hstatus).
  - vm_compute. split; reflexivity.
  - split; [now rewrite Hrun|exact Hstatus].
Defined.

(** An evaluation pass over [fs_test] with the model that always answers
    "tap": one of three predictions is right. *)
Lemma evaluation_metrics_witness :
  result (eval_pass 1000 fs_test (snd (init fs_test TEST_DATA_DIR)) tt) =
    Return ([0; 1; 0], [1; 1; 1]) /\
  accuracy_score [0; 1; 0] [1; 1; 1] = (1 # 3)%Q /\
  confusion_matrix ["sfondo"; "tap"; "sfondo"] ["tap"; "tap"; "tap"]
                   class_names = [[0; 2]; [0; 1]]%nat.
Proof.
  assert (Hpass : result (eval_pass 1000 fs_test
                            (snd (init fs_test TEST_DATA_DIR)) tt) =
                  Return ([0; 1; 0], [1; 1; 1])).
  { vm_compute. reflexivity. }
  pose proof (@evaluation_metrics rational_floats idle_torch
                1000 fs_test tt _ _ Hpass) as W.
  cbv zeta in W. destruct W as (_ & _ & Hacc & Hcm & _).
  split; [exact Hpass|]. split.
  - rewrite Hacc. vm_compute. reflexivity.
  - change ["sfondo"; "tap"; "sfondo"] with (map class_name_of [0; 1; 0]).
    change ["tap"; "tap"; "tap"] with (map class_name_of [1; 1; 1]).
    rewrite Hcm. vm_compute. reflexivity.
Defined.

End Scenarios.

(** * Further properties of the dataset class *)

Section GetitemBounds.
Context `{PyFloat}.

Lemma py_index_out_of_range {A} (l : list A) (i : Z) :
  i < - Z.of_nat (length l) \/ Z.of_nat (length l) <= i ->
  py_index l i = Raise IndexError.
Proof.
  intros Hi. unfold py_index.
  destruct (Z.ltb_spec i 0).
  - destruct (Z.leb_spec 0 (i + Z.of_nat (length l))); [lia|reflexivity].
  - destruct (Z.ltb_spec i (Z.of_nat (length l))); [lia|].
    now rewrite andb_false_r.
Qed.

Lemma py_index_negative {A} (l : list A) (i : Z) :
  - Z.of_nat (length l) <= i < 0 ->
  py_index l i = py_index l (i + Z.of_nat (length l)).
Proof.
  intros Hi. unfold py_index.
  destruct (Z.ltb_spec i 0); [|lia].
  destruct (Z.ltb_spec (i + Z.of_nat (length l)) 0); [lia|].
  reflexivity.
Qed.

(** An index outside [-size(), size() - 1] raises [IndexError] at the
    first statement of [__getitem__]: nothing is printed, no file is
    opened. *)
Theorem getitem_index_out_of_range (depth : nat) (fs : gmap string node)
    (self : HandGestureDataset) (i : Z) :
  i < - len self \/ len self <= i ->
  getitem (S depth) fs self i = ([], Raise IndexError).
Proof.
  intros Hi. cbn [getitem].
  now rewrite (py_index_out_of_range _ _ Hi).
Qed.

(** A negative index counts from the end, as for a Python list: on an
    index whose two lists have one length, [get(i)] for
    [-size() <= i < 0] prints and returns exactly what [get(i + size())]
    does, also when the sample is skipped (the next index of -1 is 0). *)
Theorem getitem_negative_index (depth : nat) (fs : gmap string node)
    (self : HandGestureDataset) (i : Z) :
  aligned self ->
  - len self <= i < 0 ->
  getitem depth fs self i = getitem depth fs self (i + len self).
Proof.
  intros Hal Hi. destruct depth as [|depth]; [reflexivity|].
  cbn [getitem]. unfold len in *.
  rewrite (py_index_negative (data_files self) i Hi).
  assert (Hi' : - Z.of_nat (length (labels self)) <= i < 0).
  { unfold aligned in Hal. now rewrite <- Hal. }
  rewrite (py_index_negative (labels self) i Hi').
  unfold aligned in Hal. rewrite <- Hal.
  replace ((i + Z.of_nat (length (data_files self)) + 1)
             mod Z.of_nat (length (data_files self)))
    with ((i + 1) mod Z.of_nat (length (data_files self))); [reflexivity|].
  replace (i + Z.of_nat (length (data_files self)) + 1)
    with (i + 1 + 1 * Z.of_nat (length (data_files self))) by lia.
  now rewrite Z_mod_plus_full.
Qed.

(** [__getitem__] moves past any run of defective samples: when the [k]
    samples from index [i] on (cyclically) are all defective, [get(i)]
    prints [k] warnings and returns what the call on index
    [(i + k) mod size()] returns, [k] frames deeper. *)
Theorem getitem_skips_defective (k depth : nat) (fs : gmap string node)
    (self : HandGestureDataset) (i : Z) :
  0 <= i < len self ->
  (forall m : nat, (m < k)%nat ->
     defective fs self ((i + Z.of_nat m) mod len self)) ->
  result (getitem (k + depth) fs self i) =
    result (getitem depth fs self ((i + Z.of_nat k) mod len self)) /\
  exists warnings,
    length warnings = k /\
    printed (getitem (k + depth) fs self i) =
      warnings ++
      printed (getitem depth fs self ((i + Z.of_nat k) mod len self)).
Proof.
  revert i. induction k as [|k IH]; intros i Hi Hdef.
  - rewrite Z.add_0_r, Z.mod_small by lia. split; [reflexivity|].
    now exists [].
  - destruct (Hdef 0%nat) as (path & data & features & Hp & Hf & He & Hs);
      [lia|].
    rewrite Z.add_0_r, Z.mod_small in Hp by lia.
    change (S k + depth)%nat with (S (k + depth)).
    rewrite (getitem_bad_shape_step (k + depth) fs self i path data features
               Hi Hp Hf He Hs).
    destruct (IH ((i + 1) mod len self)) as (Hres & warnings & Hlen & Hout).
    { apply Z.mod_pos_bound. lia. }
    { intros m Hm. specialize (Hdef (S m)). 
      rewrite Zplus_mod_idemp_l.
      replace (i + 1 + Z.of_nat m) with (i + Z.of_nat (S m)) by lia.
      apply Hdef. lia. }
    rewrite Zplus_mod_idemp_l in Hres, Hout.
    replace (i + 1 + Z.of_nat k) with (i + Z.of_nat (S k)) in Hres, Hout
      by lia.
    split; [exact Hres|].
    exists (MsgBadShape path (shape features) :: warnings).
    split; [simpl; now rewrite Hlen|].
    cbn [printed fst]. fold (printed (getitem (k + depth) fs self
                                        ((i + 1) mod len self))).
    rewrite Hout. reflexivity.
Qed.

(** When every sample of the index is defective, [get(i)] raises
    [RecursionError] whatever the recursion limit: the calls go round the
    index without ever returning. *)
Theorem getitem_all_defective_never_returns (depth : nat)
    (fs : gmap string node) (self : HandGestureDataset) (i : Z) :
  (forall j, 0 <= j < len self -> defective fs self j) ->
  0 <= i < len self ->
  result (getitem depth fs self i) = Raise RecursionError.
Proof.
  intros Hall. revert i. induction depth as [|depth IH]; intros i Hi.
  - reflexivity.
  - destruct (Hall i Hi) as (path & data & features & Hp & Hf & He & Hs).
    rewrite (getitem_bad_shape_step depth fs self i path data features
               Hi Hp Hf He Hs).
    cbn [result snd]. apply IH. apply Z.mod_pos_bound. lia.
Qed.

End GetitemBounds.

Section GetitemInvariants.
Context `{PyFloat}.

Lemma outcome_mapM_length {A B} (f : A -> outcome B) (l : list A)
    (ys : list B) :
  outcome_mapM f l = Return ys -> length ys = length l.
Proof.
  revert ys. induction l as [|a l IH]; intros ys; simpl.
  - now intros [= <-].
  - destruct (f a); [|discriminate].
    destruct (outcome_mapM f l); [|discriminate].
    intros [= <-]. simpl. now rewrite (IH _ eq_refl).
Qed.

Lemma same_shapes (items : list json) (s : option (list nat))
    (ss : list (option (list nat))) :
  map np_shape items = s :: ss ->
  forallb (same_shape s) ss = true ->
  Forall (fun item => np_shape item = s) items.
Proof.
  intros Hmap Hall.
  assert (Hs : Forall (fun t => t = s) (map np_shape items)).
  { rewrite Hmap. constructor; [reflexivity|].
    apply Forall_forall. intros t Ht.
    apply list_elem_of_In in Ht.
    apply (proj1 (forallb_forall _ _) Hall) in Ht.
    unfold same_shape in Ht. now apply bool_decide_eq_true in Ht. }
  now apply List.Forall_map in Hs.
Qed.

(** The scalars NumPy collects are as many as the discovered shape has
    cells. *)
Lemma np_shape_leaves :
  forall (v : json) (dims : list nat),
    np_shape v = Some dims -> length (np_leaves v) = cells dims.
Proof.
  fix IH 1. intros v dims.
  destruct v as [| b | z | x | s | items | members];
    try (intros [= <-]; reflexivity).
  rewrite np_shape_array, np_leaves_array.
  assert (Hitems : Forall (fun item => forall d, np_shape item = Some d ->
                             length (np_leaves item) = cells d) items).
  { clear dims.
    induction items as [|item items IHitems]; constructor;
      [exact (IH item)|exact IHitems]. }
  clear IH.
  destruct (map np_shape items) as [|s ss] eqn:Hmap.
  - intros [= <-]. destruct items; [reflexivity|discriminate].
  - destruct (forallb (same_shape s) ss) eqn:Hall; [|discriminate].
    pose proof (same_shapes items s ss Hmap Hall) as Hsame.
    destruct s as [d|]; [|discriminate].
    intros [= <-]. cbn [cells fold_right]. fold (cells d).
    clear Hmap Hall.
    induction items as [|item items IHitems]; [reflexivity|].
    inversion Hitems as [|? ? Hitem Hrest]; subst.
    inversion Hsame as [|? ? Hs Hsame']; subst.
    cbn [flat_map length]. rewrite length_app.
    rewrite (Hitem d Hs), (IHitems Hrest Hsame'). simpl. reflexivity.
Qed.

(** An array built by [np.array] holds as many elements as its shape has
    cells. *)
Lemma np_array_cells (v : json) (a : ndarray) :
  np_array v = Return a -> length (elements a) = cells (shape a).
Proof.
  unfold np_array.
  destruct (np_shape v) as [dims|] eqn:Hshape; [|discriminate].
  destruct (outcome_mapM np_setitem (np_leaves v)) as [xs|] eqn:Hxs;
    [|discriminate].
  intros [= <-]. simpl.
  rewrite (outcome_mapM_length _ _ _ Hxs).
  now apply np_shape_leaves.
Qed.

Lemma extract_features_cells (data : json) (features : ndarray) :
  extract_features data = Return features ->
  length (elements features) = cells (shape features).
Proof.
  unfold extract_features.
  destruct (signal _ data); [|discriminate].
  destruct (signal _ data); [|discriminate].
  destruct (signal _ data); [|discriminate].
  apply np_array_cells.
Qed.

Lemma open_read_inv (fs : gmap string node) (p : string) (c : content) :
  open_read fs p = Return c -> fs !! p = Some (File c).
Proof.
  unfold open_read. destruct (fs !! p) as [[names|c']|]; try discriminate.
  now intros [= ->].
Qed.

(** Whatever [get(i)] returns is a whole sample of the expected size: the
    matrix has shape (3, 25) and 75 elements, and it comes with its own
    label. Either it is the all-zero matrix with label 0, for a listed
    file that is not JSON, or it is the array extracted from a listed
    file together with the label the index holds for that same file,
    never the label of another one. *)
Theorem getitem_returns_whole_sample (depth : nat) (fs : gmap string node)
    (self : HandGestureDataset) (i : Z) (x : ndarray) (l : Z) :
  result (getitem depth fs self i) = Return (x, l) ->
  shape x = [3%nat; 25%nat] /\
  length (elements x) = 75%nat /\
  exists j path,
    py_index (data_files self) j = Return path /\
    ((fs !! path = Some (File NotJson) /\
      x = torch_zeros 3 25 /\ l = 0) \/
     (exists data,
        fs !! path = Some (File (Json data)) /\
        extract_features data = Return x /\
        py_index (labels self) j = Return l)).
Proof.
  revert i. induction depth as [|depth IH]; intros i Hres.
  - discriminate.
  - cbn [getitem] in Hres.
    apply io_bind_result in Hres as (path & Hpath & Hres).
    apply io_bind_result in Hres as (c & Hopen & Hres).
    apply open_read_inv in Hopen.
    destruct c as [|e|data].
    + injection Hres as <- <-.
      split; [reflexivity|]. split; [reflexivity|].
      exists i, path. split; [exact Hpath|]. left. auto.
    + discriminate.
    + apply io_bind_result in Hres as (features & Hfeat & Hres).
      destruct (shape_ok features) eqn:Hok; cbn [negb] in Hres.
      * apply io_bind_result in Hres as (label & Hlabel & Hres).
        injection Hres as <- <-.
        apply bool_decide_eq_true in Hok.
        split; [exact Hok|]. split.
        { rewrite (extract_features_cells data features Hfeat), Hok.
          reflexivity. }
        exists i, path. split; [exact Hpath|]. right.
        exists data. auto.
      * apply io_bind_result in Hres as (u & _ & Hres).
        destruct (len self =? 0); [discriminate|].
        now apply IH in Hres.
Qed.

(** A window of frame records yields an array of shape (3, number of
    frames), so [__getitem__] keeps the file exactly when it holds 25
    frames; with any other number of frames, also none, the sample is
    defective. *)
Theorem extract_features_frame_count (frames : list json) :
  Forall frame_record frames ->
  exists features,
    extract_features (JArray frames) = Return features /\
    shape features = [3%nat; length frames] /\
    length (elements features) = (3 * length frames)%nat /\
    (shape_ok features = true <-> length frames = 25%nat).
Proof.
  intros Hframes.
  assert (Hrow : forall key, key ∈ SIGNALS ->
            Forall (fun v => numeric v = true)
                   (map (signal_value key) frames)).
  { intros key Hkey. apply List.Forall_map.
    eapply Forall_impl; [exact Hframes|].
    intros item. now apply signal_value_numeric. }
  destruct (np_array_rows
              (map (signal_value "relativeYVelocity") frames)
              (map (signal_value "relativeYAcceleration") frames)
              (map (signal_value "stabilityRatio") frames)
              (length frames)) as (xs & Harr & Hxs);
    try (apply Hrow; unfold SIGNALS; repeat constructor);
    try apply length_map.
  exists {| shape := [3%nat; length frames]; elements := xs |}.
  assert (Hfeat : extract_features (JArray frames) =
                  Return {| shape := [3%nat; length frames];
                            elements := xs |}).
  { unfold extract_features. rewrite !signal_frames by exact Hframes.
    exact Harr. }
  split; [exact Hfeat|]. split; [reflexivity|]. split.
  - rewrite (extract_features_cells _ _ Hfeat). simpl. lia.
  - unfold shape_ok. cbn [shape]. split.
    + intros Hok%bool_decide_eq_true. now injection Hok.
    + intros ->. now apply bool_decide_eq_true.
Qed.

Lemma outcome_mapM_item_get_raises (key : string) (items : list json) :
  Exists (fun item => is_object item = false) items ->
  outcome_mapM (item_get key) items = Raise AttributeError.
Proof.
  induction 1 as [item items Hitem|item items _ IH]; simpl.
  - destruct item; try discriminate; reflexivity.
  - destruct (item_get key item) as [v|e] eqn:E.
    + now rewrite IH.
    + destruct item; try discriminate; try (now injection E as <-).
      simpl in E. now destruct (assoc key members).
Qed.

(** Only [JSONDecodeError] is caught. When the listed file is missing,
    [get(i)] raises [FileNotFoundError]; when it parses to a value that
    cannot be iterated (null, a boolean, a number), [TypeError]; when it
    parses to an array with an item that is not an object,
    [AttributeError]. In each case nothing is printed and the exception
    leaves [__getitem__]. *)
Theorem getitem_uncaught_errors (depth : nat) (fs : gmap string node)
    (self : HandGestureDataset) (i : Z) (path : string) :
  py_index (data_files self) i = Return path ->
  (fs !! path = None ->
   getitem (S depth) fs self i = ([], Raise FileNotFoundError)) /\
  (forall data,
     fs !! path = Some (File (Json data)) ->
     not_iterable data = true ->
     getitem (S depth) fs self i = ([], Raise TypeError)) /\
  (forall items,
     fs !! path = Some (File (Json (JArray items))) ->
     Exists (fun item => is_object item = false) items ->
     getitem (S depth) fs self i = ([], Raise AttributeError)).
Proof.
  intros Hpath. split; [|split].
  - intros Hnone. cbn [getitem]. rewrite Hpath.
    unfold io_lift at 1. unfold io_bind at 1.
    unfold open_read. now rewrite Hnone.
  - intros data Hfile Hdata. cbn [getitem]. rewrite Hpath.
    unfold io_lift at 1. unfold io_bind at 1.
    rewrite (open_read_file _ _ _ Hfile).
    unfold io_lift at 1. unfold io_bind at 1.
    destruct data; try discriminate; reflexivity.
  - intros items Hfile Hitems. cbn [getitem]. rewrite Hpath.
    unfold io_lift at 1. unfold io_bind at 1.
    rewrite (open_read_file _ _ _ Hfile).
    unfold io_lift at 1. unfold io_bind at 1.
    unfold extract_features, signal, py_iter.
    now rewrite (outcome_mapM_item_get_raises _ _ Hitems).
Qed.

End GetitemInvariants.

Section IndexInvariants.
Context `{PyFloat}.

Lemma map_const_replicate {A B} (c : B) (l : list A) :
  map (fun _ => c) l = replicate (length l) c.
Proof.
  induction l as [|a l IH]; [reflexivity|]. simpl. now rewrite IH.
Qed.

Lemma class_entries_elem (fs : gmap string node) (data_dir : string)
    (item : string * Z) (path : string) (label : Z) :
  (path, label) ∈ class_entries fs data_dir item <->
  label = snd item /\
  os_path_isdir fs (os_path_join data_dir (fst item)) = true /\
  exists filename,
    filename ∈ os_listdir fs (os_path_join data_dir (fst item)) /\
    endswith filename ".json" = true /\
    path = os_path_join (os_path_join data_dir (fst item)) filename.
Proof.
  unfold class_entries, json_files.
  destruct (os_path_isdir fs (os_path_join data_dir (fst item))).
  - rewrite list_elem_of_In, in_map_iff. split.
    + intros (filename & [= <- <-] & Hin).
      apply list_elem_of_In, list_elem_of_filter in Hin as [Hjson Hin].
      split; [reflexivity|]. split; [reflexivity|]. now exists filename.
    + intros (-> & _ & filename & Hin & Hjson & ->).
      exists filename. split; [reflexivity|].
      apply list_elem_of_In, list_elem_of_filter. now split.
  - split; [intros Hin; now apply elem_of_nil in Hin|].
    intros (_ & Hdir & _). discriminate.
Qed.

(** What [__init__] indexes: the two lists have one length, and a pair
    (path, label) is an entry exactly when, for one of the two classes,
    the class directory exists, lists a name ending in ".json", the path
    is that directory joined with the name, and the label is the index of
    that class. Names with another ending are never indexed, whatever
    they are; entries of class 0 come before entries of class 1. *)
Theorem init_entries_by_class (fs : gmap string node) (data_dir : string) :
  length (data_files (snd (init fs data_dir))) =
    length (labels (snd (init fs data_dir))) /\
  (forall path label,
     (path, label) ∈ entries (snd (init fs data_dir)) <->
     exists class_name filename,
       (class_name, label) ∈ label_map /\
       os_path_isdir fs (os_path_join data_dir class_name) = true /\
       filename ∈ os_listdir fs (os_path_join data_dir class_name) /\
       endswith filename ".json" = true /\
       path = os_path_join (os_path_join data_dir class_name) filename) /\
  (exists zeros ones,
     labels (snd (init fs data_dir)) =
       replicate zeros 0 ++ replicate ones 1).
Proof.
  destruct (init_entries fs data_dir) as (Hal & Hent & _).
  split; [exact Hal|]. split.
  - intros path label. rewrite Hent, elem_of_app, !class_entries_elem.
    cbn [fst snd]. unfold label_map. split.
    + intros [(-> & Hdir & filename & Hin & Hjson & ->) |
              (-> & Hdir & filename & Hin & Hjson & ->)].
      * exists "sfondo", filename. repeat split; auto. constructor.
      * exists "tap", filename. repeat split; auto. repeat constructor.
    + intros (class_name & filename & Hclass & Hdir & Hin & Hjson & ->).
      apply elem_of_cons in Hclass as [[= -> ->]|Hclass].
      * left. split; [reflexivity|]. split; [exact Hdir|]. now exists filename.
      * apply list_elem_of_singleton in Hclass as [= -> ->].
        right. split; [reflexivity|]. split; [exact Hdir|].
        now exists filename.
  - unfold init, label_map. cbn [fold_left]. unfold add_class.
    destruct (negb (os_path_isdir fs (os_path_join data_dir "sfondo")));
      destruct (negb (os_path_isdir fs (os_path_join data_dir "tap")));
      cbn [snd]; rewrite ?add_file_fold; cbn [labels app];
      rewrite ?map_const_replicate.
    + now exists 0%nat, 0%nat.
    + now eexists 0%nat, _.
    + eexists _, 0%nat. cbn [replicate]. now rewrite app_nil_r.
    + now eexists _, _.
Qed.

(** On an index built by [__init__], the label [get(i)] returns is always
    0 or 1, for any tree the files are then read from: the targets handed
    to the loss are valid class indices. *)
Theorem getitem_label_in_range (depth : nat) (fs fs' : gmap string node)
    (data_dir : string) (i : Z) (x : ndarray) (l : Z) :
  result (getitem depth fs' (snd (init fs data_dir)) i) = Return (x, l) ->
  l = 0 \/ l = 1.
Proof.
  apply (getitem_label fs' _ (init_labels fs data_dir) depth i x l).
Qed.

End IndexInvariants.

(** * Further properties of the scripts *)

Section TrainingFacts.
Context `{Torch}.

Lemma io_bind_printed {M A B} (c : io M A) (k : A -> io M B) :
  printed (io_bind c k) =
  printed c ++ match result c with
               | Return a => printed (k a)
               | Raise _ => []
               end.
Proof.
  destruct c as [out [a|e]]; simpl.
  - now destruct (k a).
  - now rewrite app_nil_r.
Qed.

Lemma count_events_app (f : event -> bool) (t1 t2 : list event) :
  count_events f (t1 ++ t2) = (count_events f t1 + count_events f t2)%nat.
Proof. unfold count_events. now rewrite List.filter_app, length_app. Qed.

Lemma from_dataset_count {A} (f : event -> bool) (c : io message A) :
  (forall m, f (Print (Dataset m)) = false) ->
  count_events f (printed (from_dataset c)) = 0%nat.
Proof.
  intros Hf. unfold from_dataset, printed, count_events. cbn [fst].
  induction (fst c) as [|m out IH]; [reflexivity|].
  cbn [map List.filter]. now rewrite Hf.
Qed.

(** Fetching a batch prints only lines of the dataset class. *)
Lemma fetch_count (f : event -> bool) (limit : nat)
    (fs : gmap string node) (dataset : HandGestureDataset)
    (batch : list nat) :
  (forall m, f (Print (Dataset m)) = false) ->
  count_events f (printed (fetch limit fs dataset batch)) = 0%nat.
Proof.
  intros Hf. unfold fetch. induction batch as [|i batch IH]; [reflexivity|].
  cbn [io_mapM]. rewrite io_bind_printed, count_events_app.
  rewrite from_dataset_count by exact Hf.
  destruct (result _); [|reflexivity].
  rewrite io_bind_printed, count_events_app, IH.
  now destruct (result _).
Qed.

Lemma fetch_returns (limit : nat) (fs : gmap string node)
    (dataset : HandGestureDataset) (batch : list nat) :
  fetchable limit fs dataset ->
  Forall (fun i => (i < length (data_files dataset))%nat) batch ->
  exists samples, result (fetch limit fs dataset batch) = Return samples.
Proof.
  intros Hfetch. unfold fetch.
  induction 1 as [|i batch Hi _ [samples IH]].
  - now exists [].
  - destruct (Hfetch (Z.of_nat i)) as [sample Hsample];
      [unfold len; lia|].
    exists (sample :: samples). cbn [io_mapM].
    rewrite (io_bind_return _ _ sample) by exact Hsample.
    now rewrite (io_bind_return _ _ samples) by exact IH.
Qed.

(** One iteration of the training loop on a fetchable batch: one
    optimisation step, and [loss] is assigned. *)
Lemma train_batch_returns (limit : nat) (fs : gmap string node)
    (dataset : HandGestureDataset) (st : train_state) (batch : list nat) :
  fetchable limit fs dataset ->
  Forall (fun i => (i < length (data_files dataset))%nat) batch ->
  exists st',
    result (train_batch limit fs dataset st batch) = Return st' /\
    is_Some (loss st') /\
    count_events is_step
      (printed (train_batch limit fs dataset st batch)) = 1%nat /\
    count_events is_epoch_line
      (printed (train_batch limit fs dataset st batch)) = 0%nat.
Proof.
  intros Hfetch Hbatch.
  destruct (fetch_returns limit fs dataset batch Hfetch Hbatch)
    as [samples Hsamples].
  unfold train_batch.
  destruct (train_step (model st) samples) as [model' loss'] eqn:Hstep.
  exists {| generator := generator st; model := model';
            loss := Some loss' |}.
  split; [|split; [now eexists|]].
  - rewrite (io_bind_return _ _ samples) by exact Hsamples.
    now rewrite Hstep.
  - rewrite !io_bind_printed, !count_events_app, Hsamples, Hstep.
    rewrite !fetch_count by reflexivity. split; reflexivity.
Qed.

(** The inner loop over fetchable batches. *)
Lemma train_batches_return (limit : nat) (fs : gmap string node)
    (dataset : HandGestureDataset) (bs : list (list nat))
    (st : train_state) :
  fetchable limit fs dataset ->
  Forall (Forall (fun i => (i < length (data_files dataset))%nat)) bs ->
  exists st',
    result (io_foldM (train_batch limit fs dataset) st bs) = Return st' /\
    (bs <> [] \/ is_Some (loss st) -> is_Some (loss st')) /\
    count_events is_step
      (printed (io_foldM (train_batch limit fs dataset) st bs)) =
      length bs /\
    count_events is_epoch_line
      (printed (io_foldM (train_batch limit fs dataset) st bs)) = 0%nat.
Proof.
  intros Hfetch Hbs. revert st.
  induction Hbs as [|batch bs Hbatch _ IH]; intros st.
  - exists st. split; [reflexivity|]. split; [|split; reflexivity].
    intros [Hne|Hsome]; [congruence|exact Hsome].
  - destruct (train_batch_returns limit fs dataset st batch Hfetch Hbatch)
      as (st1 & Hres1 & Hloss1 & Hsteps1 & Hlines1).
    destruct (IH st1) as (st' & Hres & Hloss & Hsteps & Hlines).
    exists st'. cbn [io_foldM].
    split; [now rewrite (io_bind_return _ _ st1) by exact Hres1|].
    split; [intros _; apply Hloss; now right|].
    rewrite !io_bind_printed, !count_events_app, Hres1.
    rewrite Hsteps1, Hlines1, Hsteps, Hlines. split; reflexivity.
Qed.

(** The batches of an epoch hold indices of the dataset only. *)
Lemma train_loader_indices (g : rng) (n : nat) :
  Forall (Forall (fun i => (i < n)%nat))
         (train_loader (fst (randperm g n))) /\
  length (train_loader (fst (randperm g n))) = (n / BATCH_SIZE)%nat.
Proof.
  pose proof (randperm_perm g n) as Hperm.
  split.
  - assert (Horder : Forall (fun i => (i < n)%nat) (fst (randperm g n))).
    { rewrite Hperm. apply Forall_seq. lia. }
    unfold train_loader, batches.
    destruct (batch_sampler_drop_split BATCH_SIZE [] (fst (randperm g n)))
      as (dropped & Hsplit & _); [unfold BATCH_SIZE; simpl; lia|].
    simpl in Hsplit. rewrite Hsplit in Horder.
    apply Forall_app in Horder as [Hconcat _].
    now apply Forall_concat.
  - unfold train_loader, batches.
    rewrite batch_sampler_drop_length by (unfold BATCH_SIZE; simpl; lia).
    cbn [length Nat.add].
    now rewrite (Permutation_length Hperm), length_seq.
Qed.

(** The outer loop over a fetchable dataset of at least one batch. *)
Lemma train_epochs_return (todo epoch limit : nat) (fs : gmap string node)
    (dataset : HandGestureDataset) (st : train_state) :
  fetchable limit fs dataset ->
  (BATCH_SIZE <= length (data_files dataset))%nat ->
  exists st',
    result (train_epochs todo epoch limit fs dataset st) = Return st' /\
    count_events is_step
      (printed (train_epochs todo epoch limit fs dataset st)) =
      (todo * (length (data_files dataset) / BATCH_SIZE))%nat /\
    count_events is_epoch_line
      (printed (train_epochs todo epoch limit fs dataset st)) = todo.
Proof.
  intros Hfetch Hsize. revert epoch st.
  induction todo as [|todo IH]; intros epoch st.
  - exists st. repeat split; reflexivity.
  - cbn [train_epochs].
    destruct (train_loader_indices (generator st)
                (length (data_files dataset))) as [Hidx Hlen].
    destruct (randperm (generator st) (length (data_files dataset)))
      as [order g']. cbn [fst] in Hidx, Hlen.
    set (st0 := {| generator := g'; model := model st; loss := loss st |}).
    destruct (train_batches_return limit fs dataset (train_loader order)
                st0 Hfetch Hidx) as (st1 & Hres1 & Hloss1 & Hsteps1 & Hlines1).
    destruct Hloss1 as [l Hl].
    { left. intros Hnil. rewrite Hnil in Hlen. cbn [length] in Hlen.
      symmetry in Hlen. apply Nat.div_small_iff in Hlen;
        unfold BATCH_SIZE in *; lia. }
    destruct (IH (S epoch) st1) as (st' & Hres & Hsteps & Hlines).
    exists st'.
    split.
    { rewrite (io_bind_return _ _ st1) by exact Hres1. rewrite Hl.
      now rewrite (io_bind_return _ _ tt) by reflexivity. }
    rewrite !io_bind_printed, !count_events_app, Hres1, Hl.
    rewrite !io_bind_printed, !count_events_app.
    cbn [result say io_print snd printed fst].
    rewrite Hsteps1, Hlines1, Hsteps, Hlines, Hlen.
    split; simpl; lia.
Qed.

Lemma dataset_lines_count (f : event -> bool) (out : list message) :
  (forall m, f (Print (Dataset m)) = false) ->
  count_events f (map (fun m => Print (Dataset m)) out) = 0%nat.
Proof.
  intros Hf. unfold count_events.
  induction out as [|m out IH]; [reflexivity|].
  cbn [map List.filter]. now rewrite Hf.
Qed.

(** The output of a training run whose epochs all complete. *)
Lemma train_model_trace (limit : nat) (fs : gmap string node) (g : rng)
    (st : train_state) :
  len (snd (init fs DATA_DIR)) <> 0 ->
  result (train_epochs NUM_EPOCHS 0 limit fs (snd (init fs DATA_DIR))
            {| generator := snd (new_model g);
               model := fst (new_model g); loss := None |}) = Return st ->
  train_model limit fs g =
    ((Print LoadingData ::
        map (fun m => Print (Dataset m)) (fst (init fs DATA_DIR)) ++
        [Print InitModel; Work ModelCreated; Print StartTraining]) ++
     printed (train_epochs NUM_EPOCHS 0 limit fs (snd (init fs DATA_DIR))
                {| generator := snd (new_model g);
                   model := fst (new_model g); loss := None |}) ++
     [Print TrainingDone; Work (TorchSave (model st)); Print WeightsSaved;
      Print Converting; Work CoreMLConvert; Work CoreMLSave;
      Print ModelSaved; Print InputName; Print ProbabilitiesName;
      Print LabelName],
     Return (model st)).
Proof.
  intros Hsize. unfold train_model.
  destruct (init fs DATA_DIR) as [out ds]. cbn [fst snd] in *.
  destruct (Z.eqb_spec (len ds) 0) as [E|_]; [contradiction|].
  destruct (new_model g) as [m g']. cbn [fst snd].
  destruct (train_epochs _ _ _ _ _ _) as [trace r]. cbn [result snd].
  intros ->.
  unfold say, perform, io_print, from_dataset, io_bind, printed.
  cbn [fst snd app]. rewrite <- !app_assoc. reflexivity.
Qed.

(** A training run over at least 16 samples that can all be fetched
    completes: it takes [size() / 16] optimisation steps in each of the
    500 epochs, prints one progress line per epoch, saves the weights it
    returns, and ends with exit status 0. *)
Theorem train_model_completes (limit : nat) (fs : gmap string node)
    (g : rng) :
  16 <= len (snd (init fs DATA_DIR)) ->
  fetchable limit fs (snd (init fs DATA_DIR)) ->
  exists saved,
    result (train_model limit fs g) = Return saved /\
    Work (TorchSave saved) ∈ printed (train_model limit fs g) /\
    count_events is_step (printed (train_model limit fs g)) =
      (500 * (length (data_files (snd (init fs DATA_DIR))) / 16))%nat /\
    count_events is_epoch_line (printed (train_model limit fs g)) =
      500%nat /\
    exit_status (train_model limit fs g) = 0.
Proof.
  intros Hsize Hfetch.
  destruct (train_epochs_return NUM_EPOCHS 0 limit fs
              (snd (init fs DATA_DIR))
              {| generator := snd (new_model g);
                 model := fst (new_model g); loss := None |} Hfetch)
    as (st & Hres & Hsteps & Hlines).
  { unfold len in Hsize. unfold BATCH_SIZE. lia. }
  assert (Hne : len (snd (init fs DATA_DIR)) <> 0) by lia.
  pose proof (train_model_trace limit fs g st Hne Hres) as Hrun.
  exists (model st). rewrite Hrun. cbn [result printed fst snd].
  split; [reflexivity|]. split.
  { apply elem_of_app. right. apply elem_of_app. right.
    repeat constructor. }
  rewrite !count_events_app, Hsteps, Hlines.
  change (Print LoadingData :: ?l) with ([Print LoadingData] ++ l).
  split; [|split; [|reflexivity]].
  - change (Print LoadingData ::
              map (fun m => Print (Dataset m)) (fst (init fs DATA_DIR)) ++
              [Print InitModel; Work ModelCreated; Print StartTraining])
      with ([Print LoadingData] ++
              map (fun m => Print (Dataset m)) (fst (init fs DATA_DIR)) ++
              [Print InitModel; Work ModelCreated; Print StartTraining]).
    rewrite !count_events_app, dataset_lines_count by reflexivity.
    change NUM_EPOCHS with 500%nat. change BATCH_SIZE with 16%nat.
    unfold count_events. cbn [List.filter is_step length]. lia.
  - change (Print LoadingData ::
              map (fun m => Print (Dataset m)) (fst (init fs DATA_DIR)) ++
              [Print InitModel; Work ModelCreated; Print StartTraining])
      with ([Print LoadingData] ++
              map (fun m => Print (Dataset m)) (fst (init fs DATA_DIR)) ++
              [Print InitModel; Work ModelCreated; Print StartTraining]).
    rewrite !count_events_app, dataset_lines_count by reflexivity.
    change NUM_EPOCHS with 500%nat.
    unfold count_events. cbn [List.filter is_epoch_line length]. lia.
Qed.

Lemma io_bind_result_cases {M A B} (c : io M A) (k : A -> io M B) :
  result (io_bind c k) =
  match result c with
  | Return a => result (k a)
  | Raise e => Raise e
  end.
Proof.
  destruct c as [out [a|e]]; simpl; [|reflexivity]. now destruct (k a).
Qed.

(** A fetch fails only with the exception of one of its samples. *)
Lemma fetch_raises (limit : nat) (fs : gmap string node)
    (dataset : HandGestureDataset) (batch : list nat) (e : exn) :
  result (fetch limit fs dataset batch) = Raise e ->
  exists i, i ∈ batch /\
    result (getitem limit fs dataset (Z.of_nat i)) = Raise e.
Proof.
  unfold fetch. induction batch as [|i batch IH]; [discriminate|].
  cbn [io_mapM]. rewrite io_bind_result_cases.
  destruct (result (from_dataset _)) as [sample|e'] eqn:Hone.
  - rewrite io_bind_result_cases.
    destruct (result (io_mapM _ batch)) as [samples|e'']; [discriminate|].
    intros [= ->]. destruct (IH eq_refl) as (j & Hj & Hraise).
    exists j. split; [now right|exact Hraise].
  - intros [= ->]. exists i. split; [now left|exact Hone].
Qed.

Lemma train_batch_outcome (limit : nat) (fs : gmap string node)
    (dataset : HandGestureDataset) (st : train_state) (batch : list nat) :
  match result (train_batch limit fs dataset st batch) with
  | Return st' => is_Some (loss st')
  | Raise e =>
      exists i, i ∈ batch /\
        result (getitem limit fs dataset (Z.of_nat i)) = Raise e
  end.
Proof.
  unfold train_batch. rewrite io_bind_result_cases.
  destruct (result (fetch limit fs dataset batch)) as [samples|e] eqn:Hfetch.
  - destruct (train_step (model st) samples) as [model' loss'].
    cbn. now eexists.
  - now apply fetch_raises.
Qed.

Lemma train_batches_outcome (limit : nat) (fs : gmap string node)
    (dataset : HandGestureDataset) (bs : list (list nat))
    (st : train_state) :
  match result (io_foldM (train_batch limit fs dataset) st bs) with
  | Return st' => bs <> [] \/ is_Some (loss st) -> is_Some (loss st')
  | Raise e =>
      exists batch i, batch ∈ bs /\ i ∈ batch /\
        result (getitem limit fs dataset (Z.of_nat i)) = Raise e
  end.
Proof.
  revert st. induction bs as [|batch bs IH]; intros st.
  - cbn. intros [Hne|Hsome]; [congruence|exact Hsome].
  - cbn [io_foldM]. rewrite io_bind_result_cases.
    pose proof (train_batch_outcome limit fs dataset st batch) as Hone.
    destruct (result (train_batch limit fs dataset st batch))
      as [st1|e].
    + specialize (IH st1).
      destruct (result (io_foldM _ st1 bs)) as [st'|e].
      * intros _. apply IH. now right.
      * destruct IH as (b & i & Hb & Hi & Hraise).
        exists b, i. split; [now right|]. now split.
    + destruct Hone as (i & Hi & Hraise).
      exists batch, i. split; [now left|]. now split.
Qed.

(** The epochs fail only at the read of [loss], when the dataset has no
    full batch, or with the exception of a sample. *)
Lemma train_epochs_raises (todo epoch limit : nat) (fs : gmap string node)
    (dataset : HandGestureDataset) (st : train_state) (e : exn) :
  result (train_epochs todo epoch limit fs dataset st) = Raise e ->
  (e = NameError /\ (length (data_files dataset) < BATCH_SIZE)%nat) \/
  (exists i, (i < length (data_files dataset))%nat /\
     result (getitem limit fs dataset (Z.of_nat i)) = Raise e).
Proof.
  revert epoch st. induction todo as [|todo IH]; intros epoch st;
    [discriminate|].
  cbn [train_epochs].
  destruct (train_loader_indices (generator st)
              (length (data_files dataset))) as [Hidx Hlen].
  destruct (randperm (generator st) (length (data_files dataset)))
    as [order g']. cbn [fst] in Hidx, Hlen.
  set (st0 := {| generator := g'; model := model st; loss := loss st |}).
  rewrite io_bind_result_cases.
  pose proof (train_batches_outcome limit fs dataset (train_loader order)
                st0) as Hfold.
  destruct (result (io_foldM _ st0 (train_loader order))) as [st1|e'].
  - destruct (loss st1) as [l|] eqn:Hl.
    + rewrite io_bind_result_cases. cbn [result say io_print snd].
      apply IH.
    + intros [= <-]. left. split; [reflexivity|].
      destruct (train_loader order) as [|b bs] eqn:Hbs.
      * cbn [length] in Hlen. symmetry in Hlen.
        apply Nat.div_small_iff in Hlen; [exact Hlen|].
        unfold BATCH_SIZE. lia.
      * destruct Hfold as [l Hsome]; [now left|]. congruence.
  - intros [= ->]. right.
    destruct Hfold as (b & i & Hb & Hi & Hraise).
    exists i. split; [|exact Hraise].
    apply (proj1 (Forall_forall _ _) Hidx) in Hb.
    now apply (proj1 (Forall_forall _ _) Hb) in Hi.
Qed.

(** A training run ends abnormally in three ways only: through [exit()]
    when the dataset is empty, with [NameError] when it has 1 to 15
    samples, and, from 16 samples on, with an exception that a call
    [get(i)] on some index of the dataset has raised. *)
Theorem train_model_failures (limit : nat) (fs : gmap string node)
    (g : rng) (e : exn) :
  result (train_model limit fs g) = Raise e ->
  (len (snd (init fs DATA_DIR)) = 0 /\ e = SystemExit None) \/
  (0 < len (snd (init fs DATA_DIR)) < 16 /\ e = NameError) \/
  (16 <= len (snd (init fs DATA_DIR)) /\
   exists i, 0 <= i < len (snd (init fs DATA_DIR)) /\
     result (getitem limit fs (snd (init fs DATA_DIR)) i) = Raise e).
Proof.
  unfold train_model.
  destruct (init fs DATA_DIR) as [out ds]. cbn [snd].
  rewrite (io_bind_return _ _ tt) by reflexivity.
  rewrite (io_bind_return _ _ tt) by reflexivity.
  destruct (Z.eqb_spec (len ds) 0) as [E|E].
  - rewrite (io_bind_return _ _ tt) by reflexivity.
    intros [= <-]. left. now split.
  - rewrite (io_bind_return _ _ tt) by reflexivity.
    destruct (new_model g) as [m g'].
    rewrite (io_bind_return _ _ tt) by reflexivity.
    rewrite (io_bind_return _ _ tt) by reflexivity.
    rewrite io_bind_result_cases.
    destruct (result (train_epochs _ _ _ _ _ _)) as [st|e'] eqn:Hepochs.
    + do 9 (rewrite (io_bind_return _ _ tt) by reflexivity).
      discriminate.
    + intros [= ->]. right.
      assert (Hpos : 0 < len ds) by (unfold len in *; lia).
      destruct (Z.lt_ge_cases (len ds) 16) as [Hsmall|Hbig].
      * left. split; [lia|].
        change NUM_EPOCHS with (S 499) in Hepochs.
        rewrite train_epochs_no_batch in Hepochs;
          [|unfold len in Hsmall; unfold BATCH_SIZE; lia|reflexivity].
        now injection Hepochs as <-.
      * right. split; [exact Hbig|].
        apply train_epochs_raises in Hepochs
          as [[_ Hlt]|(i & Hi & Hraise)].
        { unfold len in Hbig. unfold BATCH_SIZE in Hlt. lia. }
        exists (Z.of_nat i). split; [unfold len; lia|exact Hraise].
Qed.

(** A training run over fewer than 16 samples ends abnormally. *)
Lemma train_model_small (limit : nat) (fs : gmap string node) (g : rng) :
  len (snd (init fs DATA_DIR)) < 16 ->
  exists e,
    result (train_model limit fs g) = Raise e /\
    (e = SystemExit None \/ e = NameError).
Proof.
  intros Hsmall. unfold train_model.
  destruct (init fs DATA_DIR) as [out ds]. cbn [snd] in Hsmall.
  rewrite (io_bind_return _ _ tt) by reflexivity.
  rewrite (io_bind_return _ _ tt) by reflexivity.
  destruct (Z.eqb_spec (len ds) 0) as [E|E].
  - rewrite (io_bind_return _ _ tt) by reflexivity.
    exists (SystemExit None). split; [reflexivity|now left].
  - rewrite (io_bind_return _ _ tt) by reflexivity.
    destruct (new_model g) as [m g'].
    rewrite (io_bind_return _ _ tt) by reflexivity.
    rewrite (io_bind_return _ _ tt) by reflexivity.
    rewrite io_bind_result_cases.
    change NUM_EPOCHS with (S 499).
    rewrite train_epochs_no_batch;
      [|unfold len in Hsmall; unfold BATCH_SIZE; lia|reflexivity].
    exists NameError. split; [reflexivity|now right].
Qed.

(** An evaluation run begins with a whole training run, because
    [evaluate_model.py] imports [train_model]: when training ends
    abnormally the evaluation run ends there with the same output and the
    same exception; otherwise the evaluation proper follows and scores
    the weights that training has just saved. In particular, with fewer
    than 16 training samples no evaluation ever takes place, whatever the
    test set holds. *)
Theorem evaluate_model_trains_first (limit : nat) (fs : gmap string node)
    (g : rng) :
  (forall e,
     result (train_model limit fs g) = Raise e ->
     evaluate_model limit fs g = (printed (train_model limit fs g), Raise e)) /\
  (forall saved,
     result (train_model limit fs g) = Return saved ->
     evaluate_model limit fs g =
       (printed (train_model limit fs g) ++
          printed (evaluate limit fs saved),
        result (evaluate limit fs saved))) /\
  (len (snd (init fs DATA_DIR)) < 16 ->
   exists e,
     evaluate_model limit fs g = (printed (train_model limit fs g), Raise e) /\
     (e = SystemExit None \/ e = NameError)).
Proof.
  assert (Hraise : forall e,
            result (train_model limit fs g) = Raise e ->
            evaluate_model limit fs g =
              (printed (train_model limit fs g), Raise e)).
  { intros e. unfold evaluate_model.
    destruct (train_model limit fs g) as [out r]. simpl. now intros ->. }
  split; [exact Hraise|]. split.
  - intros saved. unfold evaluate_model.
    destruct (train_model limit fs g) as [out r]. simpl. intros ->.
    simpl. now destruct (evaluate limit fs saved).
  - intros Hsmall.
    destruct (train_model_small limit fs g Hsmall) as (e & Hres & He).
    exists e. split; [now apply Hraise|exact He].
Qed.

End TrainingFacts.

Section EvaluationFacts.
Context `{Torch}.

Lemma batch_sampler_keep_length (b : nat) (acc indices : list nat) :
  (length acc < b)%nat ->
  length (batch_sampler b false acc indices) =
    ((length acc + length indices + b - 1) / b)%nat.
Proof.
  revert acc. induction indices as [|idx rest IH]; intros acc Hacc.
  - cbn [batch_sampler length]. rewrite andb_true_r, Nat.add_0_r.
    destruct (Nat.ltb_spec 0 (length acc)) as [Hpos|Hzero].
    + replace (length acc + b - 1)%nat
        with (1 * b + (length acc - 1))%nat by lia.
      rewrite Nat.div_add_l by lia.
      rewrite (Nat.div_small (length acc - 1) b) by lia. reflexivity.
    + replace (length acc + b - 1)%nat with (b - 1)%nat by lia.
      rewrite Nat.div_small by lia. reflexivity.
  - cbn [batch_sampler]. rewrite length_app. cbn [length].
    destruct (Nat.eqb_spec (length acc + 1) b) as [E|E].
    + cbn [length]. rewrite IH by (simpl; lia). cbn [length].
      replace (length acc + S (length rest) + b - 1)%nat
        with (1 * b + (0 + length rest + b - 1))%nat by lia.
      rewrite Nat.div_add_l by lia. reflexivity.
    + rewrite IH by (rewrite length_app; simpl; lia).
      rewrite length_app. cbn [length]. f_equal. lia.
Qed.

Lemma fetch_map (limit : nat) (fs : gmap string node)
    (dataset : HandGestureDataset) (sample : nat -> ndarray * Z)
    (batch : list nat) :
  Forall (fun i => result (getitem limit fs dataset (Z.of_nat i)) =
                   Return (sample i)) batch ->
  result (fetch limit fs dataset batch) = Return (map sample batch).
Proof.
  unfold fetch. induction 1 as [|i batch Hi _ IH]; [reflexivity|].
  cbn [io_mapM map].
  rewrite (io_bind_return _ _ (sample i)) by exact Hi.
  now rewrite (io_bind_return _ _ (map sample batch)) by exact IH.
Qed.

Lemma eval_batches (limit : nat) (fs : gmap string node)
    (dataset : HandGestureDataset) (p : parameters)
    (sample : nat -> ndarray * Z) (bs : list (list nat))
    (acc : list Z * list Z) :
  Forall (Forall (fun i =>
            result (getitem limit fs dataset (Z.of_nat i)) =
            Return (sample i))) bs ->
  result (io_foldM (eval_batch limit fs dataset p) acc bs) =
    Return (fst acc ++ map (fun i => snd (sample i)) (concat bs),
            snd acc ++ map (fun i => argmax (forward p (fst (sample i))))
                           (concat bs)) /\
  count_events is_forward
    (printed (io_foldM (eval_batch limit fs dataset p) acc bs)) = length bs.
Proof.
  intros Hbs. revert acc.
  induction Hbs as [|batch bs Hbatch _ IH]; intros acc.
  - cbn. rewrite !app_nil_r. split; [now destruct acc|reflexivity].
  - pose proof (fetch_map limit fs dataset sample batch Hbatch) as Hfetch.
    assert (Hone : result (eval_batch limit fs dataset p acc batch) =
              Return (fst acc ++ map snd (map sample batch),
                      snd acc ++ map (fun s => argmax (forward p (fst s)))
                                     (map sample batch))).
    { unfold eval_batch.
      now rewrite (io_bind_return _ _ (map sample batch)) by exact Hfetch. }
    destruct (IH (fst acc ++ map snd (map sample batch),
                  snd acc ++ map (fun s => argmax (forward p (fst s)))
                                 (map sample batch))) as [Hres Hcount].
    cbn [io_foldM]. split.
    + rewrite (io_bind_return _ _ _ Hone), Hres. cbn [fst snd concat].
      rewrite !map_app, !map_map, <- !app_assoc. reflexivity.
    + rewrite io_bind_printed, count_events_app, Hone, Hcount.
      unfold eval_batch.
      rewrite io_bind_printed, count_events_app, Hfetch.
      rewrite fetch_count by reflexivity. reflexivity.
Qed.

(** The result of the pass when every sample is fetched. *)
Lemma eval_pass_batches_scored (limit : nat)
    (fs : gmap string node) (dataset : HandGestureDataset)
    (p : parameters) (sample : nat -> ndarray * Z) :
  (forall i, (i < length (data_files dataset))%nat ->
     result (getitem limit fs dataset (Z.of_nat i)) = Return (sample i)) ->
  let indices := seq 0 (length (data_files dataset)) in
  result (eval_pass limit fs dataset p) =
    Return (map (fun i => snd (sample i)) indices,
            map (fun i => argmax (forward p (fst (sample i)))) indices) /\
  count_events is_forward (printed (eval_pass limit fs dataset p)) =
    length (test_loader (length (data_files dataset))).
Proof.
  intros Hsample indices. unfold eval_pass.
  assert (Hconcat : concat (test_loader (length (data_files dataset))) =
                    indices).
  { unfold test_loader, batches. apply batch_sampler_keep_concat. }
  destruct (eval_batches limit fs dataset p sample
              (test_loader (length (data_files dataset))) ([], []))
    as [Hres Hcount].
  { apply Forall_concat. rewrite Hconcat. apply Forall_seq.
    intros i Hi. apply Hsample. lia. }
  rewrite Hconcat in Hres. now split.
Qed.

(** The evaluation pass scores every sample once, in index order: when
    [get(i)] returns [sample i] for every index, the pass records, for
    i = 0 .. size() - 1, the label of [sample i] as truth and the argmax of
    the model's scores on its matrix as prediction, in
    ceil(size() / 8) forward passes. *)
Theorem eval_pass_scores_each_sample_once (limit : nat)
    (fs : gmap string node) (dataset : HandGestureDataset)
    (p : parameters) (sample : nat -> ndarray * Z) :
  (forall i, (i < length (data_files dataset))%nat ->
     result (getitem limit fs dataset (Z.of_nat i)) = Return (sample i)) ->
  let indices := seq 0 (length (data_files dataset)) in
  result (eval_pass limit fs dataset p) =
    Return (map (fun i => snd (sample i)) indices,
            map (fun i => argmax (forward p (fst (sample i)))) indices) /\
  count_events is_forward (printed (eval_pass limit fs dataset p)) =
    ((length (data_files dataset) + 7) / 8)%nat.
Proof.
  intros Hsample indices. unfold eval_pass.
  assert (Hconcat : concat (test_loader (length (data_files dataset))) =
                    indices).
  { unfold test_loader, batches. apply batch_sampler_keep_concat. }
  destruct (eval_batches limit fs dataset p sample
              (test_loader (length (data_files dataset))) ([], []))
    as [Hres Hcount].
  { apply Forall_concat. rewrite Hconcat. apply Forall_seq.
    intros i Hi. apply Hsample. lia. }
  rewrite Hconcat in Hres. split; [exact Hres|].
  rewrite Hcount. unfold test_loader, batches.
  rewrite batch_sampler_keep_length by (unfold EVAL_BATCH_SIZE; simpl; lia).
  cbn [length Nat.add]. rewrite length_seq.
  change EVAL_BATCH_SIZE with 8%nat. f_equal. lia.
Qed.

Lemma remove_dups_two {A} `{EqDecision A} (a b : A) (l : list A) :
  a <> b ->
  Forall (fun x => x = a \/ x = b) l ->
  length (remove_dups l) =
    ((if decide (a ∈ l) then 1 else 0) +
     (if decide (b ∈ l) then 1 else 0))%nat.
Proof.
  intros Hab. induction 1 as [|x l Hx _ IH]; [reflexivity|].
  cbn [remove_dups].
  destruct (decide_rel elem_of x l) as [Hin|Hout].
  - rewrite IH.
    destruct (decide (a ∈ l)), (decide (b ∈ l)),
             (decide (a ∈ x :: l)), (decide (b ∈ x :: l));
      try reflexivity; exfalso;
      rewrite ?elem_of_cons in *; destruct Hx as [-> | ->];
      intuition congruence.
  - cbn [length]. rewrite IH.
    destruct (decide (a ∈ l)), (decide (b ∈ l)),
             (decide (a ∈ x :: l)), (decide (b ∈ x :: l));
      try reflexivity; exfalso;
      rewrite ?elem_of_cons in *; destruct Hx as [-> | ->];
      intuition congruence.
Qed.

Lemma class_name_elem (a : Z) (l : list Z) :
  is_class a -> Forall is_class l ->
  class_name_of a ∈ map class_name_of l <-> a ∈ l.
Proof.
  intros Ha Hl. rewrite list_elem_of_In, in_map_iff. split.
  - intros (y & Hy & Hin). apply list_elem_of_In in Hin.
    assert (y = a) as <-; [|exact Hin].
    apply class_name_of_inj; [|exact Ha|exact Hy].
    now apply (proj1 (Forall_forall _ _) Hl).
  - intros Hin. exists a. split; [reflexivity|now apply list_elem_of_In].
Qed.

(** On class labels the report is produced exactly when both classes
    occur among truths and predictions. *)
Lemma classification_report_classes (T P : list Z) :
  Forall is_class T -> Forall is_class P ->
  classification_report (map class_name_of T) (map class_name_of P)
                        class_names =
    if both_classes T P
    then Return (Report (map class_name_of T) (map class_name_of P))
    else Raise ValueError.
Proof.
  intros HT HP.
  assert (HTP : Forall is_class (T ++ P)) by (apply Forall_app; now split).
  unfold classification_report, both_classes.
  rewrite <- map_app.
  rewrite (remove_dups_two (class_name_of 0) (class_name_of 1)).
  - pose proof (class_name_elem 0 (T ++ P) (or_introl eq_refl) HTP) as H0'.
    pose proof (class_name_elem 1 (T ++ P) (or_intror eq_refl) HTP) as H1'.
    destruct (decide (class_name_of 0 ∈ map class_name_of (T ++ P)));
      destruct (decide (class_name_of 1 ∈ map class_name_of (T ++ P)));
      destruct (bool_decide_reflect (0 ∈ T ++ P));
      destruct (bool_decide_reflect (1 ∈ T ++ P));
      try reflexivity; exfalso; tauto.
  - discriminate.
  - apply List.Forall_map. eapply Forall_impl; [exact HTP|].
    intros y [-> | ->]; [now left|now right].
Qed.

(** The evaluation proper (after the imports), on a non-empty test set
    whose samples can all be fetched, scores every sample and prints the
    accuracy and the confusion matrix; no index of a label or of a
    prediction is ever outside [class_names]. It then completes with
    the report and exit status 0 exactly when labels and predictions
    together hold both classes; when they hold only one, the report call
    raises [ValueError] and the run ends with the status of an uncaught
    exception. *)
Theorem evaluate_completes (limit : nat) (fs : gmap string node)
    (saved : parameters) (sample : nat -> ndarray * Z) :
  let dataset := snd (init fs TEST_DATA_DIR) in
  let indices := seq 0 (length (data_files dataset)) in
  let T := map (fun i => snd (sample i)) indices in
  let P := map (fun i => argmax (forward saved (fst (sample i)))) indices in
  0 < len dataset ->
  (forall i, (i < length (data_files dataset))%nat ->
     result (getitem limit fs dataset (Z.of_nat i)) = Return (sample i)) ->
  result (evaluate limit fs saved) =
    (if both_classes T P then Return tt else Raise ValueError) /\
  exit_status (evaluate limit fs saved) =
    (if both_classes T P then 0 else 1) /\
  Print (Accuracy (accuracy_score T P)) ∈ printed (evaluate limit fs saved) /\
  (both_classes T P = true ->
   Print (Report (map class_name_of T) (map class_name_of P)) ∈
     printed (evaluate limit fs saved)).
Proof.
  intros dataset indices T P Hsize Hsample.
  destruct (eval_pass_batches_scored limit fs dataset saved sample Hsample)
    as [Hpass _].
  fold indices T P in Hpass.
  assert (HT : Forall is_class T).
  { unfold T. apply List.Forall_map. apply Forall_seq. intros i Hi.
    destruct (sample i) as [x l] eqn:Hs.
    apply (getitem_label fs dataset (init_labels fs TEST_DATA_DIR)
             limit (Z.of_nat i) x l).
    rewrite Hsample by (unfold indices in *; lia). now rewrite Hs. }
  assert (HP : Forall is_class P).
  { unfold P. apply List.Forall_map. apply Forall_forall. intros i _.
    apply argmax_class. }
  assert (Hreport : report_metrics T P =
    ([Work Metric; Print ResultsHeader;
      Print (Accuracy (accuracy_score T P)); Print MatrixHeader;
      Print (Matrix (confusion_matrix (map class_name_of T)
                       (map class_name_of P) class_names));
      Print ReportHeader] ++
     (if both_classes T P
      then [Print (Report (map class_name_of T) (map class_name_of P))]
      else []),
     if both_classes T P then Return tt else Raise ValueError)).
  { unfold report_metrics.
    rewrite (named_classes T HT), (named_classes P HP).
    cbv beta iota zeta delta [io_lift io_bind say perform io_print app].
    rewrite (classification_report_classes T P HT HP).
    now destruct (both_classes T P). }
  assert (Hrun : evaluate limit fs saved =
    ((Print LoadingTestData ::
        map (fun m => Print (Dataset m)) (fst (init fs TEST_DATA_DIR)) ++
        [Print LoadingModel; Work ModelCreated; Work TorchLoad;
         Print RunningPredictions]) ++
     printed (eval_pass limit fs dataset saved) ++
     printed (report_metrics T P), result (report_metrics T P))).
  { unfold evaluate. subst dataset.
    destruct (init fs TEST_DATA_DIR) as [out ds]. cbn [fst snd] in *.
    destruct (Z.eqb_spec (len ds) 0) as [E|_]; [lia|].
    destruct (eval_pass limit fs ds saved) as [trace r].
    cbn [result snd] in Hpass. subst r.
    unfold say, perform, io_print, from_dataset, io_bind, printed, result.
    cbn [fst snd app].
    destruct (report_metrics T P) as [out' r'].
    cbn [fst snd app]. rewrite <- !app_assoc. reflexivity. }
  rewrite Hrun, Hreport. cbn [result printed fst snd].
  split; [reflexivity|]. split.
  { unfold exit_status. cbn [snd]. now destruct (both_classes T P). }
  split.
  - apply elem_of_app. right. apply elem_of_app. right.
    apply elem_of_app. left. repeat constructor.
  - intros ->. apply elem_of_app. right. apply elem_of_app. right.
    apply elem_of_app. right. repeat constructor.
Qed.

End EvaluationFacts.

(** * The further properties at concrete inputs *)

Section MoreScenarios.
#[local] Existing Instance rational_floats.
#[local] Existing Instance idle_torch.

(** Index 3 of an index of three samples. *)
Lemma getitem_index_out_of_range_witness :
  getitem 1 fs_small (snd (init fs_small DATA_DIR)) 3 =
    ([], Raise IndexError).
Proof.
  apply getitem_index_out_of_range. right. vm_compute. discriminate.
Defined.

(** Index -1 of the index over [fs_small] is index 2. *)
Lemma getitem_negative_index_witness :
  getitem 5 fs_small (snd (init fs_small DATA_DIR)) (-1) =
  getitem 5 fs_small (snd (init fs_small DATA_DIR))
          (-1 + len (snd (init fs_small DATA_DIR))).
Proof.
  apply getitem_negative_index.
  - reflexivity.
  - vm_compute. split; [discriminate|reflexivity].
Defined.

Lemma fs_small_defective_0 :
  defective fs_small (snd (init fs_small DATA_DIR)) 0.
Proof.
  exists "dataset/train/sfondo/s0.json", short_window. eexists.
  split; [vm_compute; reflexivity|]. split; [vm_compute; reflexivity|].
  split; [vm_compute; reflexivity|]. vm_compute. intros E. discriminate E.
Qed.

(** One defective sample at index 0 of the index over [fs_small]. *)
Lemma getitem_skips_defective_witness :
  result (getitem (1 + 1) fs_small (snd (init fs_small DATA_DIR)) 0) =
  result (getitem 1 fs_small (snd (init fs_small DATA_DIR))
            ((0 + Z.of_nat 1) mod len (snd (init fs_small DATA_DIR)))).
Proof.
  apply (getitem_skips_defective 1 1 fs_small).
  - vm_compute. split; [discriminate|reflexivity].
  - intros m Hm. assert (m = 0%nat) as -> by lia.
    exact fs_small_defective_0.
Defined.

(** The only sample of [fs_empty_window] is defective. *)
Lemma getitem_all_defective_never_returns_witness :
  result (getitem 1000 fs_empty_window
            (snd (init fs_empty_window TEST_DATA_DIR)) 0) =
    Raise RecursionError.
Proof.
  apply getitem_all_defective_never_returns.
  - intros j Hj. rewrite init_empty_window in *.
    assert (j = 0) as -> by (unfold len in Hj; simpl in Hj; lia).
    exists "dataset/test/tap/a.json", (JArray []). eexists.
    split; [reflexivity|]. split; [vm_compute; reflexivity|].
    split; [vm_compute; reflexivity|]. vm_compute. intros E. discriminate E.
  - vm_compute. split; [discriminate|reflexivity].
Defined.

(** What [get(0)] returns on [fs_small] is the sample of index 1. *)
Lemma getitem_returns_whole_sample_witness :
  exists x, 
    result (getitem 2 fs_small (snd (init fs_small DATA_DIR)) 0) =
      Return (x, 1) /\
    shape x = [3%nat; 25%nat] /\ length (elements x) = 75%nat.
Proof.
  destruct (result (getitem 2 fs_small (snd (init fs_small DATA_DIR)) 0))
    as [[x l]|e] eqn:Hres; [|vm_compute in Hres; discriminate Hres].
  assert (l = 1) as -> by (vm_compute in Hres; now injection Hres).
  exists x. split; [reflexivity|].
  destruct (getitem_returns_whole_sample 2 fs_small
              (snd (init fs_small DATA_DIR)) 0 x 1 Hres) as (Hs & Hl & _).
  now split.
Defined.

(** A window of 24 frames. *)
Lemma extract_features_frame_count_witness :
  exists features,
    extract_features (JArray (replicate 24 full_frame)) = Return features /\
    shape features = [3%nat; 24%nat] /\
    shape_ok features = false.
Proof.
  destruct (extract_features_frame_count (replicate 24 full_frame))
    as (features & Hfeat & Hshape & _ & Hok).
  - apply Forall_forall. intros item Hitem.
    apply elem_of_replicate in Hitem as [-> _]. exact full_frame_record.
  - exists features. split; [exact Hfeat|]. split; [exact Hshape|].
    destruct (shape_ok features); [|reflexivity].
    destruct Hok as [Hok _]. specialize (Hok eq_refl). discriminate Hok.
Defined.

(** The three unusable files of [fs_odd]. *)
Lemma getitem_uncaught_errors_witness :
  getitem 1 fs_odd (snd (init fs_odd DATA_DIR)) 0 = ([], Raise TypeError) /\
  getitem 1 fs_odd (snd (init fs_odd DATA_DIR)) 1 =
    ([], Raise AttributeError) /\
  getitem 1 fs_odd (snd (init fs_odd DATA_DIR)) 2 =
    ([], Raise FileNotFoundError).
Proof.
  split; [|split].
  - destruct (getitem_uncaught_errors 0 fs_odd (snd (init fs_odd DATA_DIR))
                0 "dataset/train/tap/n.json") as (_ & Htype & _);
      [vm_compute; reflexivity|].
    apply (Htype (JInt 5)); [vm_compute; reflexivity|reflexivity].
  - destruct (getitem_uncaught_errors 0 fs_odd (snd (init fs_odd DATA_DIR))
                1 "dataset/train/tap/a.json") as (_ & _ & Hattr);
      [vm_compute; reflexivity|].
    apply (Hattr [full_frame; JInt 1]); [vm_compute; reflexivity|].
    right. now left.
  - destruct (getitem_uncaught_errors 0 fs_odd (snd (init fs_odd DATA_DIR))
                2 "dataset/train/tap/gone.json") as (Hgone & _);
      [vm_compute; reflexivity|].
    apply Hgone. vm_compute. reflexivity.
Defined.

(** The label [get(1)] returns on [fs_small]. *)
Lemma getitem_label_in_range_witness :
  exists x l,
    result (getitem 1 fs_small (snd (init fs_small DATA_DIR)) 1) =
      Return (x, l) /\ (l = 0 \/ l = 1).
Proof.
  destruct (result (getitem 1 fs_small (snd (init fs_small DATA_DIR)) 1))
    as [[x l]|e] eqn:Hres; [|vm_compute in Hres; discriminate Hres].
  exists x, l. split; [reflexivity|].
  exact (getitem_label_in_range 1 fs_small fs_small DATA_DIR 1 x l Hres).
Defined.

Lemma fs_train16_fetchable :
  fetchable 1 fs_train16 (snd (init fs_train16 DATA_DIR)).
Proof.
  intros i Hi. change (len _) with 16 in Hi.
  replace i with (Z.of_nat (Z.to_nat i)) by lia.
  assert (Hn : (Z.to_nat i < 16)%nat) by lia.
  revert Hn. generalize (Z.to_nat i). clear i Hi. intros n Hn.
  do 16 (destruct n as [|n]; [eexists; vm_compute; reflexivity|]).
  lia.
Qed.

(** A training run over the sixteen samples of [fs_train16]: one step in
    each of the 500 epochs. *)
Lemma train_model_completes_witness :
  exists saved,
    result (train_model 1 fs_train16 tt) = Return saved /\
    Work (TorchSave saved) ∈ printed (train_model 1 fs_train16 tt) /\
    count_events is_step (printed (train_model 1 fs_train16 tt)) =
      (500 * (length (data_files (snd (init fs_train16 DATA_DIR))) / 16))%nat /\
    count_events is_epoch_line (printed (train_model 1 fs_train16 tt)) =
      500%nat /\
    exit_status (train_model 1 fs_train16 tt) = 0.
Proof.
  apply (@train_model_completes rational_floats idle_torch 1 fs_train16 tt).
  - vm_compute. discriminate.
  - exact fs_train16_fetchable.
Defined.

(** A training run over the three samples of [fs_small] fails with
    [NameError]. *)
Lemma train_model_failures_witness :
  0 < len (snd (init fs_small DATA_DIR)) < 16 /\
  result (train_model 1000 fs_small tt) = Raise NameError.
Proof.
  assert (Hres : result (train_model 1000 fs_small tt) = Raise NameError).
  { vm_compute. reflexivity. }
  destruct (@train_model_failures rational_floats idle_torch
              1000 fs_small tt NameError Hres)
    as [[_ E]|[[Hsize _]|[Hbig _]]].
  - discriminate E.
  - split; [exact Hsize|exact Hres].
  - vm_compute in Hbig. now contradiction Hbig.
Defined.

(** An evaluation run with the three training samples of [fs_small]. *)
Lemma evaluate_model_trains_first_witness :
  exists e,
    evaluate_model 1000 fs_small tt =
      (printed (train_model 1000 fs_small tt), Raise e) /\
    (e = SystemExit None \/ e = NameError).
Proof.
  destruct (@evaluate_model_trains_first rational_floats idle_torch
              1000 fs_small tt) as (_ & _ & Hsmall).
  apply Hsmall. vm_compute. reflexivity.
Defined.

Lemma test_sample_fetched (i : nat) :
  (i < length (data_files (snd (init fs_test TEST_DATA_DIR))))%nat ->
  result (getitem 1 fs_test (snd (init fs_test TEST_DATA_DIR))
            (Z.of_nat i)) = Return (test_sample i).
Proof.
  change (length _) with 3%nat. intros Hi.
  do 3 (destruct i as [|i]; [vm_compute; reflexivity|]). lia.
Qed.

(** The evaluation pass over the three samples of [fs_test]. *)
Lemma eval_pass_scores_each_sample_once_witness :
  result (eval_pass 1 fs_test (snd (init fs_test TEST_DATA_DIR)) tt) =
    Return ([0; 1; 0], [1; 1; 1]) /\
  count_events is_forward
    (printed (eval_pass 1 fs_test (snd (init fs_test TEST_DATA_DIR)) tt)) =
    1%nat.
Proof.
  destruct (@eval_pass_scores_each_sample_once rational_floats idle_torch
              1 fs_test (snd (init fs_test TEST_DATA_DIR)) tt test_sample
              test_sample_fetched) as [Hres Hcount].
  split.
  - rewrite Hres. vm_compute. reflexivity.
  - rewrite Hcount. vm_compute. reflexivity.
Defined.

(** The evaluation proper over [fs_test]. *)
Lemma evaluate_completes_witness :
  result (evaluate 1 fs_test tt) = Return tt /\
  exit_status (evaluate 1 fs_test tt) = 0.
Proof.
  destruct (@evaluate_completes rational_floats idle_torch
              1 fs_test tt test_sample) as (Hres & Hstatus & _).
  - vm_compute. reflexivity.
  - exact test_sample_fetched.
  - split; [exact Hres|exact Hstatus].
Defined.

End MoreScenarios.
